(** * ResuMate: the two API route handlers

    A shallow embedding of [src/app/api/extract/route.ts] (document text
    extraction) and of the analysis route handler (prompt, call of the
    completion endpoint, validation of the reply), with the properties of
    the request/response contract.

    JavaScript strings are sequences of UTF-16 code units; they are
    modelled as lists of code units, so that the regular expression class
    [\s] and [String.prototype.trim] see every white space code unit of
    ECMAScript and not only the ASCII ones. *)

From Equations Require Import Equations.
From Stdlib Require Import Ascii String.
From Stdlib Require Import List NArith ZArith Arith Bool Lia SpecFloat.
Import ListNotations.

(** ** JavaScript strings *)

Definition code_unit := N.
Definition js_string := list code_unit.

(** A literal of the source, all of whose characters are ASCII. *)
Definition str (s : string) : js_string :=
  map N_of_ascii (list_ascii_of_string s).

Definition LF : code_unit := 10%N.
Definition SP : code_unit := 32%N.
Definition DQUOTE : code_unit := 34%N.

(** [s] between double quotes, for the literals that contain some. *)
Definition quoted (s : string) : js_string := DQUOTE :: str s ++ [DQUOTE].

Definition js_string_eqb (s t : js_string) : bool :=
  if list_eq_dec N.eq_dec s t then true else false.

(** White space of ECMAScript: the code units matched by [\s] in a regular
    expression, which are also the ones removed by [trim] (WhiteSpace and
    LineTerminator): TAB, LF, VT, FF, CR, SP, NBSP, U+1680, U+2000..U+200A,
    U+2028, U+2029, U+202F, U+205F, U+3000 and U+FEFF. *)
Definition is_ws (c : code_unit) : bool :=
  ((9 <=? c) && (c <=? 13) || (c =? 32) || (c =? 160) || (c =? 5760)
   || (8192 <=? c) && (c <=? 8202) || (c =? 8232) || (c =? 8233)
   || (c =? 8239) || (c =? 8287) || (c =? 12288) || (c =? 65279))%N.

Fixpoint takeWhile (p : code_unit -> bool) (s : js_string) : js_string :=
  match s with
  | [] => []
  | c :: r => if p c then c :: takeWhile p r else []
  end.

Fixpoint dropWhile (p : code_unit -> bool) (s : js_string) : js_string :=
  match s with
  | [] => []
  | c :: r => if p c then dropWhile p r else s
  end.

(** ** [String.prototype.replace] with a global regular expression

    A [matcher] is a regular expression as seen from one position of the
    subject: given the text from that position on, the length of the match
    that starts there, or [None].  Both patterns of the source are of this
    kind (no anchor, no look-behind).  [replace_global] is the scan of
    [replace] for a [/g] pattern and a replacement without [$]: try every
    position from the left, put the replacement for a match and go on after
    it; an empty match moves on by one code unit. *)
Definition matcher := js_string -> option nat.

Equations? replace_global (m : matcher) (rep : js_string) (s : js_string)
  : js_string by wf (length s) lt :=
  replace_global m rep [] with m [] := {
    | Some _ := rep;
    | None := [] };
  replace_global m rep (c :: r) with m (c :: r) := {
    | Some 0 := rep ++ c :: replace_global m rep r;
    | Some (S k) := rep ++ replace_global m rep (skipn k r);
    | None := c :: replace_global m rep r }.
Proof.
  all: try (simpl; lia).
  simpl. rewrite length_skipn. lia.
Qed.

(** [/\s+/]: greedy, so a match is a whole maximal run of white space. *)
Definition match_ws_plus : matcher := fun s =>
  match length (takeWhile is_ws s) with
  | 0 => None
  | n => Some n
  end.

(** The position of the last line feed of [w], if any. *)
Fixpoint last_LF (w : js_string) : option nat :=
  match w with
  | [] => None
  | c :: r =>
      match last_LF r with
      | Some j => Some (S j)
      | None => if (c =? LF)%N then Some 0 else None
      end
  end.

(** [/\n\s*\n/]: a line feed, then [\s*] takes the whole run of white
    space that follows and gives back code units until the one it stops
    before is a line feed, that is, the last line feed of the run. *)
Definition match_nl_ws_nl : matcher := fun s =>
  match s with
  | c :: r =>
      if (c =? LF)%N then
        match last_LF (takeWhile is_ws r) with
        | Some j => Some (S (j + 1))
        | None => None
        end
      else None
  | [] => None
  end.

(** ** [String.prototype.trim] *)

Definition trimStart (s : js_string) : js_string := dropWhile is_ws s.

Fixpoint trimEnd (s : js_string) : js_string :=
  match s with
  | [] => []
  | c :: r =>
      match trimEnd r with
      | [] => if is_ws c then [] else [c]
      | r' => c :: r'
      end
  end.

Definition trim (s : js_string) : js_string := trimEnd (trimStart s).

(** ** The clean-up of the extracted text (extract route, lines 41-44)

    [extractedText.replace(/\s+/g, " ").replace(/\n\s*\n/g, "\n\n").trim()] *)
Definition cleanup (extractedText : js_string) : js_string :=
  trim
    (replace_global match_nl_ws_nl [LF; LF]
       (replace_global match_ws_plus [SP] extractedText)).

(** The first of the two replacements, on its own. *)
Definition collapse (s : js_string) : js_string :=
  replace_global match_ws_plus [SP] s.

Definition head_ws (s : js_string) : bool :=
  match s with
  | c :: _ => is_ws c
  | [] => false
  end.

(** Every white space code unit of [s] is a space that no white space
    follows: the shape of a text after the first replacement. *)
Fixpoint single_spaced (s : js_string) : bool :=
  match s with
  | [] => true
  | c :: r =>
      (if is_ws c then (c =? SP)%N && negb (head_ws r) else true)
      && single_spaced r
  end.

(** What is left of a text when its white space is taken out. *)
Definition visible (s : js_string) : js_string :=
  filter (fun c => negb (is_ws c)) s.

(** The words of a text: its maximal runs of code units that are not
    white space, in order. *)
Fixpoint words (s : js_string) : list js_string :=
  match s with
  | [] => []
  | c :: r =>
      if is_ws c then words r
      else if head_ws r then [c] :: words r
      else match words r with
           | w :: ws => (c :: w) :: ws
           | [] => [[c]]
           end
  end.

(** ** Other string operations of the two routes *)

(** [String.prototype.endsWith]: the last [length search] code units of
    [s] are [search]; [false] when [s] is the shorter one. *)
Definition endsWith (s search : js_string) : bool :=
  let len := length s in
  let searchLength := length search in
  if searchLength <=? len
  then js_string_eqb (skipn (len - searchLength) s) search
  else false.

(** [Array.prototype.join] on an array of strings. *)
Fixpoint join (sep : js_string) (parts : list js_string) : js_string :=
  match parts with
  | [] => []
  | [p] => p
  | p :: rest => p ++ sep ++ join sep rest
  end.

Definition is_ascii (c : code_unit) : bool := (c <? 128)%N.

(** Lower case of an ASCII code unit: [A-Z] go to [a-z], the rest stays. *)
Definition ascii_toLower (c : code_unit) : code_unit :=
  if ((65 <=? c) && (c <=? 90))%N then (c + 32)%N else c.

(** [fileName] ends in [ext] written in any letter case: its last code
    units are ASCII letters or signs whose lower case spells [ext]. *)
Definition ends_in_any_case (fileName ext : js_string) : Prop :=
  exists pre suf, fileName = pre ++ suf /\ map ascii_toLower suf = ext.

(** ** Values produced by [JSON.parse]

    A number is an IEEE 754 double; the members of an object are its own
    properties in order, each key once. *)
Definition number := spec_float.

#[local] Set Warnings "-register-all".
Inductive json : Type :=
| JNull
| JBool (b : bool)
| JNumber (n : number)
| JString (s : js_string)
| JArray (items : list json)
| JObject (members : list (js_string * json)).

Fixpoint assoc (key : js_string) (members : list (js_string * json))
  : option json :=
  match members with
  | [] => None
  | (k, v) :: rest => if js_string_eqb k key then Some v else assoc key rest
  end.

(** The own property [name] of a parsed value; [None] is [undefined]. *)
Definition member (v : json) (name : string) : option json :=
  match v with
  | JObject members => assoc (str name) members
  | _ => None
  end.

(** ToBoolean, on the result of a property read ([None] is [undefined]). *)
Definition truthy (v : option json) : bool :=
  match v with
  | None | Some JNull => false
  | Some (JBool b) => b
  | Some (JNumber (S754_zero _)) | Some (JNumber S754_nan) => false
  | Some (JNumber _) => true
  | Some (JString s) => negb (js_string_eqb s [])
  | Some (JArray _) | Some (JObject _) => true
  end.

Definition typeof_number (v : option json) : bool :=
  match v with Some (JNumber _) => true | _ => false end.

Definition Array_isArray (v : option json) : bool :=
  match v with Some (JArray _) => true | _ => false end.

(** ** Exceptions, effects and the world outside the handlers *)

(** What a [catch] clause receives: an [Error] with its message, or a
    value that is not an instance of [Error]. *)
Inductive thrown : Type :=
| ErrorObject (message : js_string)
| NotAnError.

Inductive result (A : Type) : Type :=
| Ok (a : A)
| Throw (e : thrown).
Arguments Ok {A} a.
Arguments Throw {A} e.

(** The parts of the JavaScript engine the routes rely on and that are
    not written out here: Unicode case conversion, the JSON grammar, the
    printing of doubles and the wording of a [TypeError] (for the read of a
    property of [null] or of [undefined], for the call of what is not a
    function, and for an object that has no primitive value).  The two
    laws hold of every ECMAScript engine: an ASCII code unit is a code
    point of its own, whose lower case does not depend on what comes before
    it, and the empty string is not a JSON text. *)
Class Runtime : Type := {
  toLowerCase : js_string -> js_string;
  JSON_parse : js_string -> option json;
  Number_toString : number -> js_string;
  TypeError_read_of_null : js_string -> js_string;
  TypeError_read_of_undefined : js_string -> js_string;
  TypeError_not_a_function : js_string -> js_string;
  TypeError_to_primitive : js_string;
  toLowerCase_ascii_suffix :
    forall s t, forallb is_ascii t = true ->
      exists s', toLowerCase (s ++ t) = s' ++ map ascii_toLower t;
  JSON_parse_empty : JSON_parse [] = None
}.

(** The reply of [openai.chat.completions.create], as far as the handler
    looks into it: [completion.choices[0]?.message?.content]. *)
Record ChatCompletionMessage : Type := { content : option js_string }.
Record Choice : Type := { message : option ChatCompletionMessage }.
Record ChatCompletion : Type := { choices : list Choice }.

(** [extractText] of unpdf gives the text of the pages, or one string. *)
Inductive pdf_text : Type :=
| Pages (text : list js_string)
| Merged (text : js_string).

(** Everything outside the process, for the time of one request: the
    environment variable, the constructor of the OpenAI client, the method
    [chat.completions.create] of that client and the two document parsers.
    [chat_completions_create] is one call of the method, from the prompt to
    what it returns or throws: the client is constructed without
    [maxRetries], so within one call the openai package may send the HTTP
    request again after a failure; what is counted here are the calls that
    the handler makes. *)
Record World : Type := {
  OPENAI_API_KEY : option js_string;
  new_OpenAI : option js_string -> result unit;
  chat_completions_create : js_string -> result ChatCompletion;
  extractText : list Byte.byte -> result pdf_text;
  mammoth_extractRawText : list Byte.byte -> result js_string
}.

Record File : Type := { name : js_string; arrayBuffer : list Byte.byte }.

(** The value of a field of a form: a file, or the text of a field that
    is not a file. *)
Inductive FormDataEntryValue : Type :=
| EntryFile (file : File)
| EntryString (value : js_string).

(** A request, by what its two readers give: [formData] is the value of
    [formData.get("file")] after [request.formData()], which the source
    casts to [File | null] without a test; [json] is the parsed body. *)
Record NextRequest : Type := {
  formData : result (option FormDataEntryValue);
  json_body : result json
}.

Inductive payload : Type :=
| APIError (error : js_string) (details : option js_string)
| ExtractedText (text : js_string)
| Analysis (analysisResult : json).

(** A response, by its status and by the value that its body, a JSON
    text, denotes. *)
Record NextResponse : Type := { status : N; body : payload }.

(** The value of the text [JSON.stringify(n)] for a number: [NaN] and the
    infinities are written [null], and [-0] is written [0]; a finite number
    is written with the digits that give it back. *)
Definition stringified_number (n : number) : json :=
  match n with
  | S754_nan | S754_infinity _ => JNull
  | S754_zero _ => JNumber (S754_zero false)
  | S754_finite _ _ _ => JNumber n
  end.

(** The value of the text [JSON.stringify(v)] for a value that
    [JSON.parse] has produced: all of its members and elements, in order. *)
Fixpoint stringified (v : json) : json :=
  match v with
  | JNumber n => stringified_number n
  | JArray items => JArray (map stringified items)
  | JObject members =>
      JObject (map (fun '(key, value) => (key, stringified value)) members)
  | JNull | JBool _ | JString _ => v
  end.

(** No number of [v] is [NaN], infinite or [-0]. *)
Fixpoint finite_numbers (v : json) : bool :=
  match v with
  | JNumber (S754_finite _ _ _) | JNumber (S754_zero false) => true
  | JNumber _ => false
  | JArray items => forallb finite_numbers items
  | JObject members =>
      forallb (fun '(_, value) => finite_numbers value) members
  | JNull | JBool _ | JString _ => true
  end.

(** [NextResponse.json(body, { status })]: the body is serialised with
    [JSON.stringify]; the status is 200 by default.  The error and the
    text payloads have only strings, which are written as they are. *)
Definition NextResponse_json (b : payload) (init : option N) : NextResponse :=
  {| status := match init with Some s => s | None => 200%N end;
     body := match b with
             | Analysis analysisResult => Analysis (stringified analysisResult)
             | APIError _ _ | ExtractedText _ => b
             end |}.

(** What a handler does that can be seen from outside, in order. *)
Inductive event : Type :=
| ev_request_formData
| ev_request_json
| ev_extractText (data : list Byte.byte)
| ev_mammoth_extractRawText (buffer : list Byte.byte)
| ev_new_OpenAI (apiKey : option js_string)
| ev_chat_completions_create (prompt : js_string)
| ev_console_error (label : js_string) (error : thrown).

(** Computations that log events and may throw. *)
Definition M (A : Type) : Type := list event -> list event * result A.

Definition ret {A} (a : A) : M A := fun log => (log, Ok a).

Definition bind {A B} (m : M A) (k : A -> M B) : M B := fun log =>
  match m log with
  | (log', Ok a) => k a log'
  | (log', Throw e) => (log', Throw e)
  end.

Definition throw {A} (e : thrown) : M A := fun log => (log, Throw e).

Definition emit (ev : event) : M unit := fun log => (log ++ [ev], Ok tt).

Definition try_catch {A} (m : M A) (handler : thrown -> M A) : M A := fun log =>
  match m log with
  | (log', Ok a) => (log', Ok a)
  | (log', Throw e) => handler e log'
  end.

Notation "x <- m ;; k" := (bind m (fun x => k))
  (at level 61, m at next level, right associativity).
Notation "m ;;; k" := (bind m (fun _ => k))
  (at level 61, right associativity).

(** A computation of the handler itself, which returns or throws. *)
Definition lift {A} (outcome : result A) : M A := fun log => (log, outcome).

(** A call that leaves the handler: logged, then its outcome. *)
Definition call {A} (ev : event) (outcome : result A) : M A :=
  emit ev ;;;
  match outcome with
  | Ok a => ret a
  | Throw e => throw e
  end.

Definition run {A} (m : M A) : list event * result A := m [].

(** [error instanceof Error ? error.message : "Unknown error"] *)
Definition error_details (error : thrown) : js_string :=
  match error with
  | ErrorObject message => message
  | NotAnError => str "Unknown error"
  end.

(** ** The extract route: [POST /api/extract] *)
Module Extract.
Section Route.
Context {rt : Runtime} (w : World).

Definition no_file_message : js_string := str "No file provided".
Definition legacy_doc_message : js_string :=
  str "Legacy .doc format is not supported. Please convert to .docx or PDF.".
Definition unsupported_message : js_string :=
  str "Unsupported file format. Please upload a PDF or Word document (.docx).".
Definition empty_message : js_string :=
  str "Could not extract text from the file. The file may be empty or corrupted.".
Definition failure_message : js_string :=
  str "Failed to extract text from file".

(** Line 22: [Array.isArray(text) ? text.join('\n') : text] *)
Definition joined (text : pdf_text) : js_string :=
  match text with
  | Pages pages => join [LF] pages
  | Merged t => t
  end.

(** Lines 20-22: the text layer of a PDF. *)
Definition extract_pdf (data : list Byte.byte) : M js_string :=
  text <- call (ev_extractText data) (extractText w data) ;;
  ret (joined text).

(** Lines 24-27: the raw text of a Word document. *)
Definition extract_docx (buffer : list Byte.byte) : M js_string :=
  call (ev_mammoth_extractRawText buffer) (mammoth_extractRawText w buffer).

(** Lines 40-53: clean the text up; an empty result is an error. *)
Definition respond (extractedText : js_string) : NextResponse :=
  let extractedText := cleanup extractedText in
  if js_string_eqb extractedText []
  then NextResponse_json (APIError empty_message None) (Some 400%N)
  else NextResponse_json (ExtractedText extractedText) None.

(** Lines 14-53: the dispatch on the suffix of the lowered file name. *)
Definition extract (file : File) : M NextResponse :=
  let fileName := toLowerCase (name file) in
  let arrayBuffer := arrayBuffer file in
  if endsWith fileName (str ".pdf") then
    extractedText <- extract_pdf arrayBuffer ;;
    ret (respond extractedText)
  else if endsWith fileName (str ".docx") then
    extractedText <- extract_docx arrayBuffer ;;
    ret (respond extractedText)
  else if endsWith fileName (str ".doc") then
    ret (NextResponse_json (APIError legacy_doc_message None) (Some 400%N))
  else
    ret (NextResponse_json (APIError unsupported_message None) (Some 400%N)).

(** Lines 54-60: the [catch] clause. *)
Definition on_error (error : thrown) : M NextResponse :=
  emit (ev_console_error (str "Error extracting text:") error) ;;;
  ret (NextResponse_json
         (APIError failure_message (Some (error_details error)))
         (Some 500%N)).

(** Lines 5-61.  The test [!file] of line 10 takes a missing field and
    an empty text; any other text has no [name], so that line 14 reads
    [toLowerCase] of [undefined], which is a [TypeError]. *)
Definition POST (request : NextRequest) : M NextResponse :=
  try_catch
    (file <- call ev_request_formData (formData request) ;;
     match file with
     | None | Some (EntryString []) =>
         ret (NextResponse_json (APIError no_file_message None) (Some 400%N))
     | Some (EntryString _) =>
         throw (ErrorObject (TypeError_read_of_undefined (str "toLowerCase")))
     | Some (EntryFile file) => extract file
     end)
    on_error.

End Route.
End Extract.

(** ** The analysis route: [POST /api/analyze] *)
Module Analyze.
Section Route.
Context {rt : Runtime} (w : World).

(** The results of [m], in order, when none of them is a throw; the
    first throw otherwise. *)
Fixpoint sequence {A} (m : list (result A)) : result (list A) :=
  match m with
  | [] => Ok []
  | Throw e :: _ => Throw e
  | Ok a :: rest =>
      match sequence rest with
      | Ok l => Ok (a :: l)
      | Throw e => Throw e
      end
  end.

(** ToString, as a template literal applies it to a parsed JSON value.
    An array is joined by [Array.prototype.toString], with nothing for an
    element that is [null].  An object is printed by the first of
    [toString] and [valueOf] that is a function and returns a primitive
    value: [Object.prototype.toString], unless the object has a property
    [toString] of its own; [JSON.parse] gives no function, so the own
    property is not called, [valueOf] (own or inherited) gives no
    primitive value either, and the conversion is a [TypeError]. *)
Fixpoint ToString (v : json) : result js_string :=
  match v with
  | JNull => Ok (str "null")
  | JBool true => Ok (str "true")
  | JBool false => Ok (str "false")
  | JNumber n => Ok (Number_toString n)
  | JString s => Ok s
  | JArray items =>
      match sequence
              (map (fun item => match item with
                                | JNull => Ok []
                                | _ => ToString item
                                end) items) with
      | Ok elements => Ok (join (str ",") elements)
      | Throw e => Throw e
      end
  | JObject members =>
      match assoc (str "toString") members with
      | Some _ => Throw (ErrorObject TypeError_to_primitive)
      | None => Ok (str "[object Object]")
      end
  end.

(** The template of [buildPrompt], line by line; [jobDescription || ""]
    is the empty string for a missing or falsy job description, and the
    value itself otherwise, which the template converts to a string. *)
Definition buildPrompt (resumeText : js_string) (jobDescription : option json)
  : result js_string :=
  match match jobDescription with
        | Some v => if truthy jobDescription then ToString v else Ok []
        | None => Ok []
        end with
  | Throw e => Throw e
  | Ok jobDescription =>
      Ok (join [LF]
        [ str "You are a helpful assistant that analyzes resumes and job descriptions.";
          [];
          str "I will provide text for a resume, and optionally a job description.";
          [];
          str "Your task is to:";
          [];
          str "1. Score the resume between 0 and 100 for job fit.";
          str "2. List 5 bullet points of the **strengths** of the resume.";
          str "3. List 5 bullet points of the **weaknesses** or areas to improve.";
          str "4. If a job description is provided, compute a **match percentage** based on how well the resume aligns with the job.";
          str "5. Provide concise and clear output in JSON format.";
          [];
          str "Output format MUST be exactly:";
          [];
          str "{";
          str "  " ++ quoted "resumeScore" ++ str ": <number 0-100>,";
          str "  " ++ quoted "matchPercentage"
            ++ str ": <number 0-100 or null if no job description provided>,";
          str "  " ++ quoted "strengths" ++ str ": [";
          str "    " ++ quoted "<strength bullet 1>" ++ str ",";
          str "    " ++ quoted "<strength bullet 2>" ++ str ",";
          str "    " ++ quoted "<strength bullet 3>" ++ str ",";
          str "    " ++ quoted "<strength bullet 4>" ++ str ",";
          str "    " ++ quoted "<strength bullet 5>";
          str "  ],";
          str "  " ++ quoted "weaknesses" ++ str ": [";
          str "    " ++ quoted "<weakness bullet 1>" ++ str ",";
          str "    " ++ quoted "<weakness bullet 2>" ++ str ",";
          str "    " ++ quoted "<weakness bullet 3>" ++ str ",";
          str "    " ++ quoted "<weakness bullet 4>" ++ str ",";
          str "    " ++ quoted "<weakness bullet 5>";
          str "  ]";
          str "}";
          [];
          str "Criteria:";
          str "- Score should reflect clarity, relevance, keywords, structure, and job description alignment (if provided).";
          str "- matchPercentage is ONLY computed if a job description is provided, else set it to null.";
          str "- Strengths should highlight positive aspects of the resume (skills, achievements, clarity).";
          str "- Weaknesses should highlight suggestions for improvement (missing keywords, unclear formatting, lack of results, etc.)";
          [];
          str "Here is the resume text:";
          resumeText;
          [];
          str "Here is the job description text (leave blank if none):";
          jobDescription;
          [];
          str "Respond ONLY with valid JSON. Do not include any other text or markdown formatting." ])
  end.

(** [v.name] for one of the names the handler reads ([resumeText],
    [jobDescription], [resumeScore], [strengths], [weaknesses]): none of
    them is inherited from a prototype, so only [null] (a [TypeError]) and
    the own properties of an object matter. *)
Definition get (v : json) (name : string) : M (option json) :=
  match v with
  | JNull => throw (ErrorObject (TypeError_read_of_null (str name)))
  | _ => ret (member v name)
  end.

Definition required_message : js_string := str "Resume text is required".
Definition no_response_message : js_string := str "No response from OpenAI".
Definition parse_failure_message : js_string :=
  str "Failed to parse OpenAI response".
Definition invalid_structure_message : js_string :=
  str "Invalid response structure from OpenAI".
Definition failure_message : js_string := str "Failed to analyze resume".

(** Line 143: [completion.choices[0]?.message?.content] *)
Definition responseContent (completion : ChatCompletion) : option js_string :=
  match choices completion with
  | [] => None
  | choice :: _ =>
      match message choice with
      | None => None
      | Some m => content m
      end
  end.

(** Lines 150-175: parse the reply and check its shape. *)
Definition validate (responseContent : js_string) : M NextResponse :=
  match JSON_parse responseContent with
  | None =>
      ret (NextResponse_json
             (APIError parse_failure_message (Some responseContent))
             (Some 500%N))
  | Some analysisResult =>
      resumeScore <- get analysisResult "resumeScore" ;;
      if negb (typeof_number resumeScore) then
        ret (NextResponse_json
               (APIError invalid_structure_message (Some responseContent))
               (Some 500%N))
      else
        strengths <- get analysisResult "strengths" ;;
        if negb (Array_isArray strengths) then
          ret (NextResponse_json
                 (APIError invalid_structure_message (Some responseContent))
                 (Some 500%N))
        else
          weaknesses <- get analysisResult "weaknesses" ;;
          if negb (Array_isArray weaknesses) then
            ret (NextResponse_json
                   (APIError invalid_structure_message (Some responseContent))
                   (Some 500%N))
          else ret (NextResponse_json (Analysis analysisResult) None)
  end.

(** Lines 129-175: the request has passed the check of its resume text. *)
Definition analyze (body : json) (resumeText : js_string) : M NextResponse :=
  jobDescription <- get body "jobDescription" ;;
  prompt <- lift (buildPrompt resumeText jobDescription) ;;
  completion <- call (ev_chat_completions_create prompt)
                     (chat_completions_create w prompt) ;;
  match responseContent completion with
  | None =>
      ret (NextResponse_json (APIError no_response_message None) (Some 500%N))
  | Some responseContent =>
      if js_string_eqb responseContent [] then
        ret (NextResponse_json (APIError no_response_message None) (Some 500%N))
      else validate responseContent
  end.

(** Lines 176-183: the [catch] clause. *)
Definition on_error (error : thrown) : M NextResponse :=
  emit (ev_console_error (str "Error analyzing resume:") error) ;;;
  ret (NextResponse_json
         (APIError failure_message (Some (error_details error)))
         (Some 500%N)).

(** Lines 115-184.  The test of line 124,
    [!body.resumeText || body.resumeText.trim().length === 0], by the
    value read: a falsy one is rejected; a string is trimmed; any other
    truthy JSON value has no [trim] to call, which is a [TypeError]. *)
Definition POST (request : NextRequest) : M NextResponse :=
  try_catch
    (let apiKey := OPENAI_API_KEY w in
     openai <- call (ev_new_OpenAI apiKey) (new_OpenAI w apiKey) ;;
     body <- call ev_request_json (json_body request) ;;
     resumeText <- get body "resumeText" ;;
     if negb (truthy resumeText) then
       ret (NextResponse_json (APIError required_message None) (Some 400%N))
     else
       match resumeText with
       | Some (JString s) =>
           if length (trim s) =? 0 then
             ret (NextResponse_json (APIError required_message None) (Some 400%N))
           else analyze body s
       | _ =>
           throw (ErrorObject
                    (TypeError_not_a_function (str "body.resumeText.trim")))
       end)
    on_error.

(** [chat.completions.create] was called while [request] was handled,
    and has returned a completion whose message has the content [c]. *)
Definition upstream_content (request : NextRequest) (c : js_string) : Prop :=
  exists prompt completion,
    In (ev_chat_completions_create prompt) (fst (run (POST request)))
    /\ chat_completions_create w prompt = Ok completion
    /\ responseContent completion = Some c.

(** A call of [chat.completions.create] is in the log. *)
Definition outbound_call (log : list event) : Prop :=
  exists prompt, In (ev_chat_completions_create prompt) log.

End Route.
End Analyze.

(** ** The home page: choice of the input and the two requests *)
Module Home.

Definition ALLOWED_TYPES : list js_string :=
  [ str "application/pdf";
    str "application/vnd.openxmlformats-officedocument.wordprocessingml.document" ].
Definition ALLOWED_EXTENSIONS : list js_string := [ str ".pdf"; str ".docx" ].

Definition DOT : code_unit := 46%N.

(** [String.prototype.split] with a separator of one code unit: the
    segments between the separators; one empty segment for the empty
    string. *)
Fixpoint split (sep : code_unit) (s : js_string) : list js_string :=
  match s with
  | [] => [[]]
  | c :: r =>
      if (c =? sep)%N then [] :: split sep r
      else match split sep r with
           | segment :: segments => (c :: segment) :: segments
           | [] => [[c]]
           end
  end.

(** The value of [Array.prototype.pop]: the last element, if any. *)
Definition pop {A} (l : list A) : option A := last (map Some l) None.

(** [Array.prototype.includes] on an array of strings. *)
Definition includes (l : list js_string) (x : js_string) : bool :=
  existsb (js_string_eqb x) l.

(** A [File] as the browser gives it: what is sent to the server, and the
    media type the browser has found for it. *)
Record PickedFile : Type := { picked : File; type : js_string }.

(** The state of the component, one field for each [useState]. *)
Record State : Type := {
  jobDescription : js_string;
  resumeText : js_string;
  selectedFile : option PickedFile;
  isDragOver : bool;
  error : js_string;
  isLoading : bool;
  loadingMessage : js_string
}.

Definition initial : State :=
  {| jobDescription := []; resumeText := []; selectedFile := None;
     isDragOver := false; error := []; isLoading := false;
     loadingMessage := [] |}.

Definition setResumeText (v : js_string) (st : State) : State :=
  {| jobDescription := jobDescription st; resumeText := v;
     selectedFile := selectedFile st; isDragOver := isDragOver st;
     error := error st; isLoading := isLoading st;
     loadingMessage := loadingMessage st |}.
Definition setSelectedFile (v : option PickedFile) (st : State) : State :=
  {| jobDescription := jobDescription st; resumeText := resumeText st;
     selectedFile := v; isDragOver := isDragOver st;
     error := error st; isLoading := isLoading st;
     loadingMessage := loadingMessage st |}.
Definition setError (v : js_string) (st : State) : State :=
  {| jobDescription := jobDescription st; resumeText := resumeText st;
     selectedFile := selectedFile st; isDragOver := isDragOver st;
     error := v; isLoading := isLoading st;
     loadingMessage := loadingMessage st |}.
Definition setIsLoading (v : bool) (st : State) : State :=
  {| jobDescription := jobDescription st; resumeText := resumeText st;
     selectedFile := selectedFile st; isDragOver := isDragOver st;
     error := error st; isLoading := v;
     loadingMessage := loadingMessage st |}.
Definition setLoadingMessage (v : js_string) (st : State) : State :=
  {| jobDescription := jobDescription st; resumeText := resumeText st;
     selectedFile := selectedFile st; isDragOver := isDragOver st;
     error := error st; isLoading := isLoading st;
     loadingMessage := v |}.

(** What [fetch] resolves to, as far as the page looks into it:
    [response.ok] and the outcome of [response.json()]. *)
Record Response : Type := { ok : bool; response_json : result json }.

(** The network as the page sees it: [fetch] of the two routes, by the
    file put in the form and by the value given to [JSON.stringify]. *)
Record Browser : Type := {
  fetch_extract : PickedFile -> result Response;
  fetch_analyze : json -> result Response
}.

(** What the page does outside its state, in order; the request to the
    analysis route and the item of the storage are given with the value
    that the page passes to [JSON.stringify]. *)
Inductive effect : Type :=
| fetch_api_extract (file : PickedFile)
| fetch_api_analyze (body : json)
| sessionStorage_setItem (key : js_string) (data : json)
| router_push (url : js_string).

Section Page.
Context {rt : Runtime} (browser : Browser).

(** Line 41: ["." + file.name.split(".").pop()?.toLowerCase()] *)
Definition extension (file : PickedFile) : js_string :=
  str "."
  ++ match pop (split DOT (name (picked file))) with
     | Some segment => toLowerCase segment
     | None => str "undefined"
     end.

(** Lines 40-48: the result, and the state with the message set. *)
Definition validateFile (file : PickedFile) (st : State) : bool * State :=
  if negb (includes ALLOWED_EXTENSIONS (extension file))
     && negb (includes ALLOWED_TYPES (type file))
  then (false,
        setError (str "Please upload a PDF or Word document (.pdf or .docx)") st)
  else (true, setError [] st).

(** Lines 50-55 *)
Definition handleFileSelect (file : PickedFile) (st : State) : State :=
  let (valid, st) := validateFile file st in
  if valid then setResumeText [] (setSelectedFile (Some file) st) else st.






(** [new Error(data.error || fallback)], thrown; reading [data.error]
    throws first when [data] is [null], and the constructor throws when
    its argument cannot be converted to a string. *)
Definition response_error (data : json) (fallback : string) : thrown :=
  match data with
  | JNull => ErrorObject (TypeError_read_of_null (str "error"))
  | _ =>
      match member data "error" with
      | Some v =>
          if truthy (Some v) then
            match Analyze.ToString v with
            | Ok message => ErrorObject message
            | Throw e => e
            end
          else ErrorObject (str fallback)
      | None => ErrorObject (str fallback)
      end
  end.

(** Lines 90-106: the effects, and the text or what is thrown. *)
Definition extractTextFromFile (file : PickedFile)
  : list effect * result (option json) :=
  ([fetch_api_extract file],
   match fetch_extract browser file with
   | Throw e => Throw e
   | Ok response =>
       match response_json response with
       | Throw e => Throw e
       | Ok data =>
           if negb (ok response)
           then Throw (response_error data "Failed to extract text")
           else match data with
                | JNull => Throw (ErrorObject (TypeError_read_of_null (str "text")))
                | _ => Ok (member data "text")
                end
       end
   end).

(** Lines 135-138: the object given to [JSON.stringify]; a member whose
    value is [undefined] is left out. *)
Definition analyze_body (textToAnalyze : option json) (jobDescription : js_string)
  : json :=
  JObject
    (match textToAnalyze with
     | Some v => [(str "resumeText", v)]
     | None => []
     end
     ++ match trim jobDescription with
        | [] => []
        | trimmed => [(str "jobDescription", JString trimmed)]
        end).

(** Lines 128-149: the call of the analysis route with the text, the
    storage of the result and the navigation. *)
Definition analyzeText (textToAnalyze : option json) (jobDescription : js_string)
  : list effect * result unit :=
  let body := analyze_body textToAnalyze jobDescription in
  match fetch_analyze browser body with
  | Throw e => ([fetch_api_analyze body], Throw e)
  | Ok response =>
      match response_json response with
      | Throw e => ([fetch_api_analyze body], Throw e)
      | Ok data =>
          if negb (ok response)
          then ([fetch_api_analyze body],
                Throw (response_error data "Failed to analyze resume"))
          else ([fetch_api_analyze body;
                 sessionStorage_setItem (str "analysisResult") data;
                 router_push (str "/results")],
                Ok tt)
      end
  end.

(** [err instanceof Error ? err.message : "An error occurred"] *)
Definition error_message (err : thrown) : js_string :=
  match err with
  | ErrorObject message => message
  | NotAnError => str "An error occurred"
  end.

(** Lines 108-156.  While it runs the page shows only the loader (lines
    158-167), so no other handler runs in between: the state when it has
    settled, and its effects. *)
Definition handleAnalyze (st : State) : State * list effect :=
  let st := setError [] st in
  match selectedFile st with
  | None =>
      if js_string_eqb (trim (resumeText st)) [] then
        (setError
           (str "Please upload a resume file or paste the resume text") st,
         [])
      else
        let st := setIsLoading true st in
        let st := setLoadingMessage (str "AI is analyzing your resume...") st in
        let (effects, outcome) :=
          analyzeText (Some (JString (resumeText st))) (jobDescription st) in
        let st := match outcome with
                  | Ok _ => st
                  | Throw err => setError (error_message err) st
                  end in
        (setLoadingMessage [] (setIsLoading false st), effects)
  | Some file =>
      let st := setIsLoading true st in
      let st :=
        setLoadingMessage (str "Extracting text from your resume...") st in
      let (extraction, extracted) := extractTextFromFile file in
      match extracted with
      | Throw err =>
          (setLoadingMessage []
             (setIsLoading false (setError (error_message err) st)),
           extraction)
      | Ok textToAnalyze =>
          let st :=
            setLoadingMessage (str "AI is analyzing your resume...") st in
          let (effects, outcome) :=
            analyzeText textToAnalyze (jobDescription st) in
          let st := match outcome with
                    | Ok _ => st
                    | Throw err => setError (error_message err) st
                    end in
          (setLoadingMessage [] (setIsLoading false st), extraction ++ effects)
      end
  end.





(** The two routes as this page meets them when they are served by the
    handlers above in the world [w]: the request that carries the file or
    the body, and the response as [fetch] gives it. *)
Definition upload_request (file : PickedFile) : NextRequest :=
  {| formData := Ok (Some (EntryFile (picked file)));
     json_body := Throw (ErrorObject (str "Unexpected token")) |}.

(** The body of the request is the text [JSON.stringify(body)], which
    [request.json()] parses. *)
Definition analyze_request (body : json) : NextRequest :=
  {| formData := Throw (ErrorObject (str "Content-Type was not multipart/form-data"));
     json_body := Ok (stringified body) |}.

(** The JSON of the payloads of the extract route (it has no other). *)
Definition extract_payload_json (p : payload) : json :=
  match p with
  | APIError error details =>
      JObject ((str "error", JString error)
               :: match details with
                  | Some d => [(str "details", JString d)]
                  | None => []
                  end)
  | ExtractedText text => JObject [(str "text", JString text)]
  | Analysis v => v
  end.

Definition is_ok (status : N) : bool := ((200 <=? status) && (status <=? 299))%N.

Definition served_extract (w : World) (file : PickedFile) : result Response :=
  match snd (run (Extract.POST w (upload_request file))) with
  | Ok response =>
      Ok {| ok := is_ok (status response);
            response_json := Ok (extract_payload_json (body response)) |}
  | Throw e => Throw e
  end.

End Page.
End Home.

(** ** The results page and its score ring *)
Module Results.

(** [AnalyzeResponse], as the page types what it reads from the storage. *)
Record AnalyzeResponse : Type := {
  resumeScore : number;
  matchPercentage : option number;
  strengths : list js_string;
  weaknesses : list js_string
}.

(** The doubles 60 and 85. *)
Definition sixty : number := S754_finite false 8444249301319680 (-47).
Definition eighty_five : number := S754_finite false 5981343255101440 (-46).

(** [x < y] and [x >= y] on numbers; both are false for [NaN]. *)
Definition lt (x y : number) : bool := SFltb x y.
Definition ge (x y : number) : bool := SFleb y x.

Record ScoreCategory : Type := {
  level : js_string;
  label : js_string;
  bgGradient : js_string;
  accentColor : js_string;
  cardBg : js_string
}.

(** The [useMemo] of the results page. *)
Definition scoreCategory (result : option AnalyzeResponse)
  : option ScoreCategory :=
  match result with
  | None => None
  | Some result =>
      let score := resumeScore result in
      if lt score sixty then
        Some {| level := str "low";
                label := str "Needs Improvement";
                bgGradient := str "linear-gradient(135deg, #fef2f2 0%, #fee2e2 50%, #fecaca 100%)";
                accentColor := str "#ef4444";
                cardBg := str "rgba(254, 226, 226, 0.5)" |}
      else if lt score eighty_five then
        Some {| level := str "medium";
                label := str "Good Progress";
                bgGradient := str "linear-gradient(135deg, #fffbeb 0%, #fef3c7 50%, #fde68a 100%)";
                accentColor := str "#f97316";
                cardBg := str "rgba(254, 243, 199, 0.5)" |}
      else
        Some {| level := str "high";
                label := str "Excellent!";
                bgGradient := str "linear-gradient(135deg, #f0fdf4 0%, #dcfce7 50%, #bbf7d0 100%)";
                accentColor := str "#22c55e";
                cardBg := str "rgba(220, 252, 231, 0.5)" |}
  end.

(** The test that starts the confetti: [parsed.resumeScore >= 85]. *)
Definition confetti (score : number) : bool := ge score eighty_five.

Record ScoreColor : Type := { main : js_string; glow : js_string }.

(** [getScoreColor] of the score ring. *)
Definition getScoreColor (value : number) : ScoreColor :=
  if lt value sixty then
    {| main := str "#ef4444"; glow := str "rgba(239, 68, 68, 0.4)" |}
  else if lt value eighty_five then
    {| main := str "#f97316"; glow := str "rgba(249, 115, 22, 0.4)" |}
  else
    {| main := str "#22c55e"; glow := str "rgba(34, 197, 94, 0.4)" |}.

End Results.

(** ** A concrete engine and world, for the examples

    [Sample.runtime] behaves as V8 does on the inputs of the examples
    below: ASCII names, and the replies known to [Sample.parse]; it
    rejects every other text and prints no number.  The constructor of the
    client refuses a missing key, as the one of the openai package does. *)
Module Sample.

Definition reply_out_of_range : js_string :=
  str "{" ++ quoted "resumeScore" ++ str ":250,"
    ++ quoted "matchPercentage" ++ str ":null,"
    ++ quoted "strengths" ++ str ":[" ++ quoted "Clear" ++ str "],"
    ++ quoted "weaknesses" ++ str ":[]}".

Definition analysis_out_of_range : json :=
  JObject
    [ (str "resumeScore", JNumber (S754_finite false 8796093022208000 (-45)));
      (str "matchPercentage", JNull);
      (str "strengths", JArray [JString (str "Clear")]);
      (str "weaknesses", JArray []) ].

Definition reply_no_score : js_string :=
  str "{" ++ quoted "strengths" ++ str ":[]," ++ quoted "weaknesses" ++ str ":[]}".

Definition analysis_no_score : json :=
  JObject [ (str "strengths", JArray []); (str "weaknesses", JArray []) ].

(** A score too large for a double: [JSON.parse] reads [1e400] as
    [Infinity]. *)
Definition reply_overflow : js_string :=
  str "{" ++ quoted "resumeScore" ++ str ":1e400,"
    ++ quoted "strengths" ++ str ":[]," ++ quoted "weaknesses" ++ str ":[]}".

Definition analysis_overflow : json :=
  JObject
    [ (str "resumeScore", JNumber (S754_infinity false));
      (str "strengths", JArray []);
      (str "weaknesses", JArray []) ].

Definition parse (text : js_string) : option json :=
  if js_string_eqb text reply_out_of_range then Some analysis_out_of_range
  else if js_string_eqb text reply_no_score then Some analysis_no_score
  else if js_string_eqb text reply_overflow then Some analysis_overflow
  else if js_string_eqb text (str "null") then Some JNull
  else None.

Definition runtime : Runtime :=
  {| toLowerCase := map ascii_toLower;
     JSON_parse := parse;
     Number_toString := fun _ => str "NaN";
     TypeError_read_of_null := fun name =>
       str "Cannot read properties of null (reading '" ++ name ++ str "')";
     TypeError_read_of_undefined := fun name =>
       str "Cannot read properties of undefined (reading '" ++ name ++ str "')";
     TypeError_not_a_function := fun callee => callee ++ str " is not a function";
     TypeError_to_primitive := str "Cannot convert object to primitive value";
     toLowerCase_ascii_suffix := fun s t _ =>
       ex_intro _ (map ascii_toLower s) (map_app ascii_toLower s t);
     JSON_parse_empty := eq_refl |}.

Definition missing_key : thrown :=
  ErrorObject (str "The OPENAI_API_KEY environment variable is missing or empty").

Definition world (apiKey : option js_string) (reply : result ChatCompletion)
    (pdf : result pdf_text) (docx : result js_string) : World :=
  {| OPENAI_API_KEY := apiKey;
     new_OpenAI := fun key =>
       match key with Some _ => Ok tt | None => Throw missing_key end;
     chat_completions_create := fun _ => reply;
     extractText := fun _ => pdf;
     mammoth_extractRawText := fun _ => docx |}.

Definition completion (text : option js_string) : ChatCompletion :=
  {| choices := [ {| message := Some {| content := text |} |} ] |}.

(** A request with a JSON body and no form, and one with an uploaded file. *)
Definition analyze_request (resumeText : js_string) : NextRequest :=
  {| formData := Throw NotAnError;
     json_body := Ok (JObject [ (str "resumeText", JString resumeText) ]) |}.

Definition resume : js_string := str "Senior engineer, 5 years React, AWS.".

Definition upload (fileName : string) : NextRequest :=
  {| formData := Ok (Some (EntryFile {| name := str fileName; arrayBuffer := [] |}));
     json_body := Throw NotAnError |}.

(** A form whose field [file] is a text, not a file. *)
Definition text_field (value : js_string) : NextRequest :=
  {| formData := Ok (Some (EntryString value));
     json_body := Throw NotAnError |}.

(** No key, no reply, and parsers that fail. *)
Definition no_parser : World :=
  world None (Throw NotAnError) (Throw NotAnError) (Throw NotAnError).

(** Parsers that find white space only. *)
Definition blank_pages : World :=
  world None (Throw NotAnError)
    (Ok (Pages [[SP; 9%N]; []; [LF]])) (Ok [SP; LF; 160%N]).

(** Parsers that find the same text, laid out in two ways. *)
Definition two_pages : World :=
  world None (Throw NotAnError)
    (Ok (Pages [str "Jane  Doe"; []; str "Engineer" ++ [LF]]))
    (Ok (str "Jane Doe" ++ [LF; LF; LF] ++ str "Engineer")).

(** A key, and a completion endpoint that answers with [text]. *)
Definition replying (text : option js_string) : World :=
  world (Some (str "sk-test")) (Ok (completion text))
    (Throw NotAnError) (Throw NotAnError).

(** A key, and a completion endpoint that cannot be reached. *)
Definition unreachable : World :=
  world (Some (str "sk-test")) (Throw (ErrorObject (str "Connection error.")))
    (Throw NotAnError) (Throw NotAnError).

(** A request with the JSON body [body]. *)
Definition request_with (body : json) : NextRequest :=
  {| formData := Throw NotAnError; json_body := Ok body |}.

(** A key, a completion endpoint with an answer, and parsers with text. *)
Definition full : World :=
  world (Some (str "sk-test")) (Ok (completion (Some reply_out_of_range)))
    (Ok (Pages [str "Jane  Doe"; []; str "Engineer" ++ [LF]]))
    (Ok (str "Jane Doe" ++ [LF; LF; LF] ++ str "Engineer")).

(** A file picked in the browser. *)
Definition cv : Home.PickedFile :=
  {| Home.picked := {| name := str "CV.PDF"; arrayBuffer := [] |};
     Home.type := str "application/pdf" |}.

(** The network when the extract route is served in the world [w] and the
    analysis route answers with an analysis; and without connection. *)
Definition site (w : World) : Home.Browser :=
  {| Home.fetch_extract := Home.served_extract (rt := runtime) w;
     Home.fetch_analyze := fun _ =>
       Ok {| Home.ok := true;
             Home.response_json := Ok analysis_out_of_range |} |}.

Definition offline : Home.Browser :=
  {| Home.fetch_extract := fun _ => Throw (ErrorObject (str "Failed to fetch"));
     Home.fetch_analyze := fun _ => Throw (ErrorObject (str "Failed to fetch")) |}.

(** The page after the resume was pasted, and after the file was picked. *)
Definition pasted : Home.State := Home.setResumeText resume Home.initial.
Definition picked_cv : Home.State :=
  Home.handleFileSelect (rt := runtime) cv Home.initial.

(** A score of 90, as the results page reads it. *)
Definition excellent : Results.AnalyzeResponse :=
  {| Results.resumeScore := S754_finite false 6333186975989760 (-46);
     Results.matchPercentage := None;
     Results.strengths := [];
     Results.weaknesses := [] |}.

End Sample.

(** ** Vocabulary for the outcomes of the two routes *)
Module Outcome.
Section Route.
Context {rt : Runtime} (w : World).

(** The three tests of the dispatch of the extract route on a file. *)
Definition pdf_name (f : File) : bool :=
  endsWith (toLowerCase (name f)) (str ".pdf").
Definition docx_name (f : File) : bool :=
  endsWith (toLowerCase (name f)) (str ".docx").
Definition doc_name (f : File) : bool :=
  endsWith (toLowerCase (name f)) (str ".doc").

(** Something has thrown [e] under the [try] of the extract route: the
    reading of the form, the reading of the name of a field that is a
    text and not a file, or the parser the file was given to. *)
Definition extract_raised (request : NextRequest) (e : thrown) : Prop :=
  formData request = Throw e
  \/ (exists c value,
         formData request = Ok (Some (EntryString (c :: value)))
         /\ e = ErrorObject (TypeError_read_of_undefined (str "toLowerCase")))
  \/ exists f,
       formData request = Ok (Some (EntryFile f))
       /\ ((pdf_name f = true /\ extractText w (arrayBuffer f) = Throw e)
           \/ (pdf_name f = false /\ docx_name f = true
               /\ mammoth_extractRawText w (arrayBuffer f) = Throw e)).

(** The text a parser has returned for the file of the request. *)
Definition parsed_text (request : NextRequest) (extracted : js_string) : Prop :=
  exists f,
    formData request = Ok (Some (EntryFile f))
    /\ ((pdf_name f = true
         /\ exists text, extractText w (arrayBuffer f) = Ok text
                         /\ Extract.joined text = extracted)
        \/ (pdf_name f = false /\ docx_name f = true
            /\ mammoth_extractRawText w (arrayBuffer f) = Ok extracted)).

(** The response of the [catch] clause of the extract route. *)
Definition extract_failure (e : thrown) : NextResponse :=
  {| status := 500;
     body := APIError Extract.failure_message (Some (error_details e)) |}.

(** The responses of the analysis route that are not the analysis. *)
Definition analyze_failure (e : thrown) : NextResponse :=
  {| status := 500;
     body := APIError Analyze.failure_message (Some (error_details e)) |}.
Definition required : NextResponse :=
  {| status := 400; body := APIError Analyze.required_message None |}.
Definition no_response : NextResponse :=
  {| status := 500; body := APIError Analyze.no_response_message None |}.
Definition parse_failure (c : js_string) : NextResponse :=
  {| status := 500;
     body := APIError Analyze.parse_failure_message (Some c) |}.
Definition invalid_structure (c : js_string) : NextResponse :=
  {| status := 500;
     body := APIError Analyze.invalid_structure_message (Some c) |}.

Definition is_parser_call (ev : event) : bool :=
  match ev with
  | ev_extractText _ | ev_mammoth_extractRawText _ => true
  | _ => false
  end.

Definition is_outbound_call (ev : event) : bool :=
  match ev with
  | ev_chat_completions_create _ => true
  | _ => false
  end.

(** The three tests of lines 163-167 of the analysis route, together. *)
Definition shape_ok (v : json) : bool :=
  typeof_number (member v "resumeScore")
  && Array_isArray (member v "strengths")
  && Array_isArray (member v "weaknesses").

(** The values of [resumeText] that line 124 of the analysis route
    rejects: the falsy ones and the strings of white space. *)
Definition blank_resumeText (v : option json) : bool :=
  negb (truthy v)
  || match v with
     | Some (JString s) => length (trim s) =? 0
     | _ => false
     end.

(** The reply of the completion endpoint has no content to parse. *)
Definition no_content (c : option js_string) : bool :=
  match c with
  | None => true
  | Some c => js_string_eqb c []
  end.

End Route.
End Outcome.

(** * Properties *)

(** ** The clean-up of the extracted text *)
Module TextSpec.

Example cleanup_ex :
  cleanup (str "  a" ++ [LF; LF; LF] ++ str "b   c ") = str "a b c".
Proof. reflexivity. Qed.

(** The second pattern alone does reduce blank lines to one. *)
Example replace_blank_lines_ex :
  replace_global match_nl_ws_nl [LF; LF]
    (str "a" ++ [LF; SP; LF; 9%N; LF] ++ str "b" ++ [LF] ++ str "c")
  = str "a" ++ [LF; LF] ++ str "b" ++ [LF] ++ str "c".
Proof. reflexivity. Qed.

Lemma skipn_takeWhile p s :
  skipn (length (takeWhile p s)) s = dropWhile p s.
Proof.
  induction s as [|c r IH]; simpl; [reflexivity|].
  destruct (p c); simpl; [exact IH | reflexivity].
Qed.

Lemma length_dropWhile p s : length (dropWhile p s) <= length s.
Proof.
  induction s as [|c r IH]; simpl; [lia|].
  destruct (p c); simpl; lia.
Qed.

Lemma dropWhile_all p s : forallb p s = true -> dropWhile p s = [].
Proof.
  induction s as [|c r IH]; simpl; [reflexivity|].
  destruct (p c); simpl; [exact IH | discriminate].
Qed.

(** The first replacement, by cases on the head of the text. *)
Lemma collapse_nil : collapse [] = [].
Proof. reflexivity. Qed.

Lemma collapse_ws c r :
  is_ws c = true -> collapse (c :: r) = SP :: collapse (dropWhile is_ws r).
Proof.
  intros Hc. unfold collapse. rewrite replace_global_equation_2.
  unfold match_ws_plus. simpl. rewrite Hc. simpl.
  rewrite skipn_takeWhile. reflexivity.
Qed.

Lemma collapse_other c r :
  is_ws c = false -> collapse (c :: r) = c :: collapse r.
Proof.
  intros Hc. unfold collapse. rewrite replace_global_equation_2.
  unfold match_ws_plus. simpl. rewrite Hc. simpl. reflexivity.
Qed.

Lemma head_ws_dropWhile s : head_ws (dropWhile is_ws s) = false.
Proof.
  induction s as [|c r IH]; simpl; [reflexivity|].
  destruct (is_ws c) eqn:Hc; simpl; [exact IH | exact Hc].
Qed.

Lemma head_ws_collapse s : head_ws s = false -> head_ws (collapse s) = false.
Proof.
  destruct s as [|c r]; simpl; intros Hc; [reflexivity|].
  rewrite collapse_other by exact Hc. exact Hc.
Qed.

(** After the first replacement the text is single spaced. *)
Lemma single_spaced_collapse s : single_spaced (collapse s) = true.
Proof.
  remember (length s) as n eqn:Hn.
  revert s Hn. induction n as [n IH] using lt_wf_ind. intros s Hn.
  destruct s as [|c r]; [reflexivity|].
  destruct (is_ws c) eqn:Hc.
  - rewrite collapse_ws by exact Hc. simpl.
    rewrite head_ws_collapse by apply head_ws_dropWhile. simpl.
    apply (IH (length (dropWhile is_ws r))); [|reflexivity].
    subst n. simpl. pose proof (length_dropWhile is_ws r). lia.
  - rewrite collapse_other by exact Hc. simpl. rewrite Hc. simpl.
    apply (IH (length r)); [subst n; simpl; lia | reflexivity].
Qed.

Lemma dropWhile_head s : head_ws s = false -> dropWhile is_ws s = s.
Proof.
  destruct s as [|c r]; simpl; [reflexivity|]. intros ->. reflexivity.
Qed.

(** A single spaced text is left as it is by both replacements. *)
Lemma collapse_single_spaced s : single_spaced s = true -> collapse s = s.
Proof.
  induction s as [|c r IH]; [reflexivity|]. simpl.
  destruct (is_ws c) eqn:Hc; intros H.
  - apply andb_prop in H. destruct H as [H Hr].
    apply andb_prop in H. destruct H as [Hsp Hh].
    apply N.eqb_eq in Hsp. apply negb_true_iff in Hh.
    rewrite collapse_ws by exact Hc.
    rewrite dropWhile_head by exact Hh.
    rewrite IH by exact Hr. subst c. reflexivity.
  - rewrite collapse_other by exact Hc. rewrite IH; [reflexivity|].
    exact H.
Qed.

Lemma single_spaced_not_LF s c :
  single_spaced s = true -> In c s -> c <> LF.
Proof.
  induction s as [|d r IH]; simpl; [tauto|].
  intros H [->|Hin].
  - intros ->. simpl in H. discriminate.
  - apply andb_prop in H. destruct H as [_ Hr]. apply IH; assumption.
Qed.

Lemma replace_blank_lines_no_LF rep s :
  ~ In LF s -> replace_global match_nl_ws_nl rep s = s.
Proof.
  induction s as [|c r IH]; intros Hno; [reflexivity|].
  rewrite replace_global_equation_2. simpl.
  destruct (N.eqb_spec c LF) as [->|Hne].
  - exfalso. apply Hno. left. reflexivity.
  - simpl. rewrite IH; [reflexivity|].
    intros Hin. apply Hno. right. exact Hin.
Qed.

Lemma replace_blank_lines_single_spaced rep s :
  single_spaced s = true -> replace_global match_nl_ws_nl rep s = s.
Proof.
  intros H. apply replace_blank_lines_no_LF.
  intros Hin. exact (single_spaced_not_LF s LF H Hin eq_refl).
Qed.

(** [trim] *)
Lemma single_spaced_tail c r :
  single_spaced (c :: r) = true -> single_spaced r = true.
Proof. simpl. intros H. apply andb_prop in H. tauto. Qed.

Lemma single_spaced_dropWhile s :
  single_spaced s = true -> single_spaced (dropWhile is_ws s) = true.
Proof.
  induction s as [|c r IH]; [reflexivity|]. intros H.
  simpl. destruct (is_ws c); [|exact H].
  apply IH. exact (single_spaced_tail _ _ H).
Qed.

Lemma trimEnd_head c r' s :
  trimEnd s = c :: r' -> exists r, s = c :: r.
Proof.
  destruct s as [|d r]; simpl; [discriminate|].
  destruct (trimEnd r) as [|x t].
  - destruct (is_ws d); [discriminate|].
    intros H. injection H as -> _. eauto.
  - intros H. injection H as -> _. eauto.
Qed.

Lemma head_ws_trimEnd s : head_ws s = false -> head_ws (trimEnd s) = false.
Proof.
  intros H. destruct (trimEnd s) as [|c r'] eqn:E; [reflexivity|].
  destruct (trimEnd_head _ _ _ E) as [r ->]. exact H.
Qed.

Lemma head_ws_trimEnd_tail r :
  trimEnd r <> [] -> head_ws (trimEnd r) = head_ws r.
Proof.
  destruct (trimEnd r) as [|c r'] eqn:E; [congruence|]. intros _.
  destruct (trimEnd_head _ _ _ E) as [r0 ->]. reflexivity.
Qed.

Lemma single_spaced_trimEnd s :
  single_spaced s = true -> single_spaced (trimEnd s) = true.
Proof.
  induction s as [|c r IH]; [reflexivity|]. intros H.
  pose proof (IH (single_spaced_tail _ _ H)) as IHr.
  simpl. destruct (trimEnd r) as [|x t] eqn:E.
  - destruct (is_ws c) eqn:Hc; [reflexivity|]. simpl. rewrite Hc. reflexivity.
  - assert (Hh : head_ws (x :: t) = head_ws r).
    { rewrite <- E. apply head_ws_trimEnd_tail. rewrite E. discriminate. }
    simpl in H. apply andb_prop in H. destruct H as [H _].
    change (single_spaced (c :: x :: t)) with
      ((if is_ws c then (c =? SP)%N && negb (head_ws (x :: t)) else true)
       && single_spaced (x :: t)).
    rewrite IHr, Hh, H. reflexivity.
Qed.

Lemma trimEnd_idempotent s : trimEnd (trimEnd s) = trimEnd s.
Proof.
  induction s as [|c r IH]; [reflexivity|]. simpl.
  destruct (trimEnd r) as [|x t] eqn:E.
  - destruct (is_ws c) eqn:Hc; [reflexivity|]. simpl. rewrite Hc. reflexivity.
  - change (trimEnd (c :: x :: t)) with
      (match trimEnd (x :: t) with
       | [] => if is_ws c then [] else [c]
       | r' => c :: r'
       end).
    rewrite IH. reflexivity.
Qed.

Lemma trim_trimmed s : trim (trim s) = trim s.
Proof.
  unfold trim, trimStart.
  rewrite (dropWhile_head (trimEnd (dropWhile is_ws s))).
  - apply trimEnd_idempotent.
  - apply head_ws_trimEnd, head_ws_dropWhile.
Qed.

Lemma single_spaced_trim s :
  single_spaced s = true -> single_spaced (trim s) = true.
Proof.
  intros H. apply single_spaced_trimEnd, single_spaced_dropWhile, H.
Qed.

Lemma cleanup_collapse s : cleanup s = trim (collapse s).
Proof.
  unfold cleanup. fold (collapse s).
  rewrite replace_blank_lines_single_spaced by apply single_spaced_collapse.
  reflexivity.
Qed.

Lemma single_spaced_cleanup s : single_spaced (cleanup s) = true.
Proof.
  rewrite cleanup_collapse. apply single_spaced_trim, single_spaced_collapse.
Qed.

(** The cleaned text has no white space at either end, and its other code
    units are those of the text, in order. *)
Lemma cleanup_trimmed s :
  head_ws (cleanup s) = false /\ trimEnd (cleanup s) = cleanup s.
Proof.
  rewrite cleanup_collapse. unfold trim, trimStart. split.
  - apply head_ws_trimEnd, head_ws_dropWhile.
  - apply trimEnd_idempotent.
Qed.

Lemma visible_cons c r :
  visible (c :: r) = if is_ws c then visible r else c :: visible r.
Proof. unfold visible. simpl. destruct (is_ws c); reflexivity. Qed.

Lemma visible_dropWhile s : visible (dropWhile is_ws s) = visible s.
Proof.
  induction s as [|c r IH]; [reflexivity|].
  rewrite visible_cons. simpl. destruct (is_ws c) eqn:Hc; [exact IH|].
  rewrite visible_cons, Hc. reflexivity.
Qed.

Lemma visible_collapse s : visible (collapse s) = visible s.
Proof.
  remember (length s) as n eqn:Hn.
  revert s Hn. induction n as [n IH] using lt_wf_ind. intros s Hn.
  destruct s as [|c r]; [reflexivity|].
  rewrite (visible_cons c r). destruct (is_ws c) eqn:Hc.
  - rewrite collapse_ws by exact Hc. rewrite visible_cons.
    change (is_ws SP) with true. cbv iota.
    rewrite (IH (length (dropWhile is_ws r))); [|subst n; simpl|reflexivity].
    + apply visible_dropWhile.
    + pose proof (length_dropWhile is_ws r). lia.
  - rewrite collapse_other by exact Hc. rewrite visible_cons, Hc.
    f_equal. apply (IH (length r)); [subst n; simpl; lia | reflexivity].
Qed.

Lemma visible_trimEnd s : visible (trimEnd s) = visible s.
Proof.
  induction s as [|c r IH]; [reflexivity|].
  rewrite (visible_cons c r), <- IH. simpl.
  destruct (trimEnd r) as [|x t].
  - destruct (is_ws c) eqn:Hc; [reflexivity|].
    rewrite visible_cons, Hc. reflexivity.
  - apply visible_cons.
Qed.

Lemma cleanup_visible s : visible (cleanup s) = visible s.
Proof.
  rewrite cleanup_collapse. unfold trim, trimStart.
  rewrite visible_trimEnd, visible_dropWhile. apply visible_collapse.
Qed.

(** C6: the clean-up of the extracted text (the two replacements, then
    [trim]) is idempotent: on a text that it has produced it changes
    nothing. *)
Theorem cleanup_idempotent (s : js_string) :
  cleanup (cleanup s) = cleanup s.
Proof.
  rewrite (cleanup_collapse (cleanup s)).
  rewrite collapse_single_spaced by apply single_spaced_cleanup.
  rewrite cleanup_collapse. apply trim_trimmed.
Qed.

(** C5: the clean-up does not keep one blank line where the text had
    several: the first replacement has already turned every line feed into
    a space when the second one looks for blank lines, so [a], three line
    feeds, [b] comes out as [a b], and no cleaned text has a line feed. *)
Theorem cleanup_loses_blank_lines :
  cleanup (str "a" ++ [LF; LF; LF] ++ str "b") = str "a b"
  /\ forall s, ~ In LF (cleanup s).
Proof.
  split; [reflexivity|].
  intros s Hin.
  exact (single_spaced_not_LF _ LF (single_spaced_cleanup s) Hin eq_refl).
Qed.

(** A text of white space only is cleaned to the empty string. *)
Lemma cleanup_blank s : forallb is_ws s = true -> cleanup s = [].
Proof.
  intros H. rewrite cleanup_collapse.
  destruct s as [|c r]; [reflexivity|].
  simpl in H. apply andb_prop in H. destruct H as [Hc Hr].
  rewrite collapse_ws by exact Hc.
  rewrite dropWhile_all by exact Hr. reflexivity.
Qed.

Lemma trim_blank s : forallb is_ws s = true -> trim s = [].
Proof.
  intros H. unfold trim, trimStart. rewrite dropWhile_all by exact H.
  reflexivity.
Qed.

(** *** The cleaned text, word by word *)

Example words_ex :
  words (str "  Jane " ++ [LF; 9%N] ++ str "Doe,  PhD ")
  = [str "Jane"; str "Doe,"; str "PhD"].
Proof. reflexivity. Qed.

Lemma words_dropWhile s : words (dropWhile is_ws s) = words s.
Proof.
  induction s as [|c r IH]; [reflexivity|]. simpl.
  destruct (is_ws c) eqn:Hc; [exact IH|]. simpl. rewrite Hc. reflexivity.
Qed.

Lemma words_head_ws r : head_ws r = true -> words r = words (dropWhile is_ws r).
Proof. intros _. symmetry. apply words_dropWhile. Qed.

Lemma words_not_nil s : Forall (fun w => w <> []) (words s).
Proof.
  induction s as [|c r IH]; [constructor|]. simpl.
  destruct (is_ws c); [exact IH|].
  destruct (head_ws r).
  - constructor; [discriminate | exact IH].
  - destruct (words r) as [|w ws].
    + constructor; [discriminate | constructor].
    + inversion IH; subst. constructor; [discriminate | assumption].
Qed.

Lemma join_cons_cons sep c w ws :
  join sep ((c :: w) :: ws) = c :: join sep (w :: ws).
Proof. destruct ws; reflexivity. Qed.

Lemma join_words_nil s : join [SP] (words s) = [] -> words s = [].
Proof.
  pose proof (words_not_nil s) as H.
  destruct (words s) as [|w ws]; [reflexivity|].
  inversion H as [|? ? Hw _]; subst.
  destruct w as [|c w]; [congruence|].
  rewrite join_cons_cons. discriminate.
Qed.

Lemma collapse_dropWhile s :
  dropWhile is_ws (collapse s) = collapse (dropWhile is_ws s).
Proof.
  destruct s as [|c r]; [reflexivity|].
  destruct (is_ws c) eqn:Hc.
  - rewrite collapse_ws by exact Hc. simpl. rewrite Hc.
    apply dropWhile_head, head_ws_collapse, head_ws_dropWhile.
  - simpl. rewrite Hc. apply dropWhile_head.
    rewrite collapse_other by exact Hc. exact Hc.
Qed.

(** The cleaned text of a text that does not start with white space. *)
Lemma trimEnd_collapse_words s :
  head_ws s = false -> trimEnd (collapse s) = join [SP] (words s).
Proof.
  remember (length s) as n eqn:Hn.
  revert s Hn. induction n as [n IH] using lt_wf_ind. intros s Hn Hhead.
  destruct s as [|c r]; [reflexivity|].
  simpl in Hhead. rewrite collapse_other by exact Hhead.
  change (words (c :: r)) with
    (if is_ws c then words r
     else if head_ws r then [c] :: words r
     else match words r with
          | w :: ws => (c :: w) :: ws
          | [] => [[c]]
          end).
  rewrite Hhead.
  destruct (head_ws r) eqn:Hr.
  - destruct r as [|c' r']; [discriminate|]. simpl in Hr.
    rewrite collapse_ws by exact Hr.
    rewrite (words_head_ws (c' :: r')) by exact Hr.
    change (dropWhile is_ws (c' :: r'))
      with (if is_ws c' then dropWhile is_ws r' else c' :: r').
    rewrite Hr.
    assert (IHd : trimEnd (collapse (dropWhile is_ws r'))
                  = join [SP] (words (dropWhile is_ws r'))).
    { apply (IH (length (dropWhile is_ws r'))).
      - subst n. simpl. pose proof (length_dropWhile is_ws r'). lia.
      - reflexivity.
      - apply head_ws_dropWhile. }
    change (trimEnd (c :: SP :: collapse (dropWhile is_ws r')))
      with (match (match trimEnd (collapse (dropWhile is_ws r')) with
                   | [] => if is_ws SP then [] else [SP]
                   | y => SP :: y
                   end) with
            | [] => if is_ws c then [] else [c]
            | x => c :: x
            end).
    rewrite IHd, Hhead.
    destruct (join [SP] (words (dropWhile is_ws r'))) as [|x t] eqn:Ej.
    + apply join_words_nil in Ej. rewrite Ej. reflexivity.
    + destruct (words (dropWhile is_ws r')) as [|w ws]; [discriminate|].
      change (join [SP] ([c] :: w :: ws)) with (c :: SP :: join [SP] (w :: ws)).
      do 2 f_equal. symmetry. exact Ej.
  - assert (IHr : trimEnd (collapse r) = join [SP] (words r)).
    { apply (IH (length r)); [subst n; simpl; lia | reflexivity | exact Hr]. }
    change (trimEnd (c :: collapse r))
      with (match trimEnd (collapse r) with
            | [] => if is_ws c then [] else [c]
            | x => c :: x
            end).
    rewrite IHr, Hhead.
    destruct (join [SP] (words r)) as [|x t] eqn:Ej.
    + apply join_words_nil in Ej. rewrite Ej. reflexivity.
    + destruct (words r) as [|w ws]; [discriminate|].
      rewrite join_cons_cons. f_equal. symmetry. exact Ej.
Qed.

(** X1: the cleaned text is the words of the extracted text, in order,
    with one space between two of them: white space of any kind and
    length, line feeds included, only separates words. *)
Theorem cleanup_words (s : js_string) :
  cleanup s = join [SP] (words s).
Proof.
  rewrite cleanup_collapse. unfold trim, trimStart.
  rewrite collapse_dropWhile.
  rewrite trimEnd_collapse_words by apply head_ws_dropWhile.
  rewrite words_dropWhile. reflexivity.
Qed.

Lemma visible_nil s : visible s = [] -> forallb is_ws s = true.
Proof.
  induction s as [|c r IH]; [reflexivity|].
  rewrite visible_cons. simpl.
  destruct (is_ws c); [exact IH | discriminate].
Qed.

Lemma cleanup_nil_blank s : cleanup s = [] -> forallb is_ws s = true.
Proof.
  intros H. apply visible_nil. rewrite <- cleanup_visible, H. reflexivity.
Qed.

Lemma trim_cleanup s : trim (cleanup s) = cleanup s.
Proof. rewrite cleanup_collapse. apply trim_trimmed. Qed.

(** X2: the cleaned text is empty exactly when the extracted text has no
    code unit other than white space. *)
Theorem cleanup_empty_iff (s : js_string) :
  cleanup s = [] <-> forallb is_ws s = true.
Proof.
  split.
  - apply cleanup_nil_blank.
  - apply cleanup_blank.
Qed.

End TextSpec.

(** ** Handlers answer *)
Module EffectSpec.

(** A [try] whose [catch] clause returns does not throw. *)
Lemma try_catch_returns {A} (m : M A) (handler : thrown -> M A) :
  (forall e log, exists log' a, handler e log = (log', Ok a)) ->
  forall log, exists log' a, try_catch m handler log = (log', Ok a).
Proof.
  intros Hhandler log. unfold try_catch.
  destruct (m log) as [log' [a|e]]; [eauto | apply Hhandler].
Qed.

End EffectSpec.

(** ** The serialisation of a response *)
Module JsonSpec.

Example stringified_ex :
  stringified
    (JObject [ (str "resumeScore", JNumber (S754_infinity false));
               (str "matchPercentage", JNumber (S754_zero true));
               (str "strengths", JArray [JNumber S754_nan; JString (str "a")]) ])
  = JObject [ (str "resumeScore", JNull);
              (str "matchPercentage", JNumber (S754_zero false));
              (str "strengths", JArray [JNull; JString (str "a")]) ].
Proof. reflexivity. Qed.

(** Induction on a value, with the property for the elements of an array
    and for the values of the members of an object. *)
Lemma json_induction (P : json -> Prop) :
  P JNull ->
  (forall b, P (JBool b)) ->
  (forall n, P (JNumber n)) ->
  (forall s, P (JString s)) ->
  (forall items, Forall P items -> P (JArray items)) ->
  (forall members,
      Forall (fun entry => P (snd entry)) members -> P (JObject members)) ->
  forall v, P v.
Proof.
  intros Hnull Hbool Hnumber Hstring Harray Hobject.
  fix IH 1. intros [| b | n | s | items | members].
  - exact Hnull.
  - apply Hbool.
  - apply Hnumber.
  - apply Hstring.
  - apply Harray. induction items as [|x r IHr]; constructor.
    + apply IH.
    + exact IHr.
  - apply Hobject. induction members as [|[k x] r IHr]; constructor.
    + apply IH.
    + exact IHr.
Qed.

Lemma stringified_number_fixed n :
  stringified_number n = JNumber n <-> finite_numbers (JNumber n) = true.
Proof.
  destruct n as [[|]|[|]| |sign m e]; simpl; split; intros H;
    try reflexivity; discriminate.
Qed.

(** A value is written as it is exactly when all its numbers are finite
    and none is [-0]. *)
Lemma stringified_fixed v : stringified v = v <-> finite_numbers v = true.
Proof.
  induction v as [| b | n | s | items IH | members IH] using json_induction;
    try (simpl; split; reflexivity).
  - apply stringified_number_fixed.
  - simpl. split.
    + intros H. injection H as H. induction IH as [|x r Hx _ IHr]; [reflexivity|].
      simpl in H |- *. injection H as H1 H2.
      apply Hx in H1. rewrite H1. exact (IHr H2).
    + intros H. f_equal. induction IH as [|x r Hx _ IHr]; [reflexivity|].
      simpl in H |- *. apply andb_prop in H. destruct H as [H1 H2].
      apply Hx in H1. rewrite H1, (IHr H2). reflexivity.
  - simpl. split.
    + intros H. injection H as H.
      induction IH as [|[k x] r Hx _ IHr]; [reflexivity|].
      simpl in H, Hx |- *. injection H as H1 H2.
      apply Hx in H1. rewrite H1. exact (IHr H2).
    + intros H. f_equal.
      induction IH as [|[k x] r Hx _ IHr]; [reflexivity|].
      simpl in H, Hx |- *. apply andb_prop in H. destruct H as [H1 H2].
      apply Hx in H1. rewrite H1, (IHr H2). reflexivity.
Qed.

(** The members of the written object are the members of the object,
    written. *)
Lemma member_stringified v name :
  member (stringified v) name = option_map stringified (member v name).
Proof.
  destruct v as [| b | n | s | items | members]; try reflexivity.
  - destruct n as [[|]|[|]| |sign m e]; reflexivity.
  - simpl. induction members as [|[k x] r IH]; [reflexivity|].
    simpl. destruct (js_string_eqb k (str name)); [reflexivity | exact IH].
Qed.

Lemma member_stringified_fixed v name x :
  member v name = Some x ->
  finite_numbers x = true ->
  member (stringified v) name = Some x.
Proof.
  intros Hx Hfinite. rewrite member_stringified, Hx. simpl.
  f_equal. apply stringified_fixed. exact Hfinite.
Qed.

End JsonSpec.

(** ** The extract route *)
Module ExtractSpec.
Import Extract.

(** Every request gets a response: nothing escapes the [catch] clause. *)
Lemma extract_responds {rt : Runtime} (w : World) request :
  exists log response, run (POST w request) = (log, Ok response).
Proof.
  apply EffectSpec.try_catch_returns. intros e log.
  unfold on_error, bind, emit, ret. eauto.
Qed.

Example extract_pdf_ex :
  run (POST (rt := Sample.runtime) Sample.two_pages (Sample.upload "CV.pdf"))
  = ([ev_request_formData; ev_extractText []],
     Ok {| status := 200; body := ExtractedText (str "Jane Doe Engineer") |}).
Proof. reflexivity. Qed.

Example extract_docx_ex :
  run (POST (rt := Sample.runtime) Sample.two_pages (Sample.upload "cv.docx"))
  = ([ev_request_formData; ev_mammoth_extractRawText []],
     Ok {| status := 200; body := ExtractedText (str "Jane Doe Engineer") |}).
Proof. reflexivity. Qed.

Example unsupported_ex :
  run (POST (rt := Sample.runtime) Sample.two_pages (Sample.upload "cv.txt"))
  = ([ev_request_formData],
     Ok {| status := 400; body := APIError unsupported_message None |}).
Proof. reflexivity. Qed.

Example text_field_ex :
  run (POST (rt := Sample.runtime) Sample.two_pages
         (Sample.text_field (str "cv.pdf")))
  = ([ev_request_formData;
      ev_console_error (str "Error extracting text:")
        (ErrorObject
           (str "Cannot read properties of undefined (reading 'toLowerCase')"))],
     Ok {| status := 500;
           body := APIError failure_message
                     (Some (str "Cannot read properties of undefined (reading 'toLowerCase')")) |}).
Proof. reflexivity. Qed.

Example parser_failure_ex :
  run (POST (rt := Sample.runtime) Sample.no_parser (Sample.upload "cv.pdf"))
  = ([ev_request_formData; ev_extractText [];
      ev_console_error (str "Error extracting text:") NotAnError],
     Ok {| status := 500;
           body := APIError failure_message (Some (str "Unknown error")) |}).
Proof. reflexivity. Qed.

Lemma js_string_eqb_eq s t : js_string_eqb s t = true <-> s = t.
Proof.
  unfold js_string_eqb. destruct (list_eq_dec N.eq_dec s t); split;
    intros; congruence.
Qed.

Lemma js_string_eqb_refl s : js_string_eqb s s = true.
Proof. apply js_string_eqb_eq. reflexivity. Qed.

Lemma endsWith_app pre suf : endsWith (pre ++ suf) suf = true.
Proof.
  unfold endsWith. rewrite length_app.
  replace (length suf <=? length pre + length suf) with true
    by (symmetry; apply Nat.leb_le; lia).
  replace (length pre + length suf - length suf) with (length pre + 0) by lia.
  rewrite skipn_app, Nat.add_0_r, skipn_all, Nat.sub_diag. simpl.
  apply js_string_eqb_refl.
Qed.

Lemma endsWith_inv s suf :
  endsWith s suf = true -> exists pre, s = pre ++ suf.
Proof.
  unfold endsWith. destruct (length suf <=? length s); [|discriminate].
  intros H. apply js_string_eqb_eq in H.
  remember (length s - length suf) as k eqn:Hk. clear Hk.
  exists (firstn k s). subst suf. symmetry. apply firstn_skipn.
Qed.

(** Two suffixes of one text end with the same code unit. *)
Lemma endsWith_last s a x b y :
  endsWith s (a ++ [x]) = true -> endsWith s (b ++ [y]) = true -> x = y.
Proof.
  intros Ha Hb.
  destruct (endsWith_inv _ _ Ha) as [p ->].
  destruct (endsWith_inv _ _ Hb) as [q Hq].
  rewrite !app_assoc in Hq. apply app_inj_tail in Hq. tauto.
Qed.

Lemma endsWith_other_last s a x b y :
  endsWith s (a ++ [x]) = true -> x <> y -> endsWith s (b ++ [y]) = false.
Proof.
  intros Ha Hne. destruct (endsWith s (b ++ [y])) eqn:Hb; [|reflexivity].
  exfalso. exact (Hne (endsWith_last _ _ _ _ _ Ha Hb)).
Qed.

Lemma is_ascii_toLower t :
  forallb is_ascii (map ascii_toLower t) = true -> forallb is_ascii t = true.
Proof.
  induction t as [|c r IH]; [reflexivity|]. simpl. intros H.
  apply andb_prop in H. destruct H as [Hc Hr]. rewrite IH by exact Hr.
  rewrite andb_true_r. revert Hc. unfold is_ascii, ascii_toLower.
  destruct ((65 <=? c)%N && (c <=? 90)%N) eqn:E; [|tauto].
  intros _. apply andb_prop in E. destruct E as [_ E].
  apply N.leb_le in E. apply N.ltb_lt. lia.
Qed.

Section Route.
Context {rt : Runtime} (w : World).

(** The lowered name of a file ends in the lower case of whatever
    ASCII suffix the name has. *)
Lemma lowered_suffix fileName ext :
  forallb is_ascii ext = true ->
  ends_in_any_case fileName ext ->
  endsWith (toLowerCase fileName) ext = true.
Proof.
  intros Hascii (pre & suf & -> & Hsuf).
  destruct (toLowerCase_ascii_suffix pre suf) as [s' E].
  - apply is_ascii_toLower. rewrite Hsuf. exact Hascii.
  - rewrite E, Hsuf. apply endsWith_app.
Qed.

Lemma ends_in_any_case_exact s ext :
  map ascii_toLower ext = ext -> endsWith s ext = true ->
  ends_in_any_case s ext.
Proof.
  intros Hlow H. destruct (endsWith_inv _ _ H) as [pre ->].
  exists pre, ext. split; [reflexivity | exact Hlow].
Qed.

Lemma extract_pdf_name f :
  endsWith (toLowerCase (name f)) (str ".pdf") = true ->
  extract w f =
  (extractedText <- extract_pdf w (arrayBuffer f) ;;
   ret (respond extractedText)).
Proof. intros H. unfold extract. rewrite H. reflexivity. Qed.

Lemma extract_docx_name f :
  endsWith (toLowerCase (name f)) (str ".docx") = true ->
  extract w f =
  (extractedText <- extract_docx w (arrayBuffer f) ;;
   ret (respond extractedText)).
Proof.
  intros H. unfold extract.
  assert (Hpdf : endsWith (toLowerCase (name f)) (str ".pdf") = false)
    by (apply (endsWith_other_last _ (str ".doc") 120%N (str ".pd") 102%N);
        [exact H | discriminate]).
  rewrite Hpdf, H. reflexivity.
Qed.

Lemma extract_doc_name f :
  endsWith (toLowerCase (name f)) (str ".doc") = true ->
  extract w f =
  ret (NextResponse_json (APIError legacy_doc_message None) (Some 400%N)).
Proof.
  intros H. unfold extract.
  assert (Hpdf : endsWith (toLowerCase (name f)) (str ".pdf") = false)
    by (apply (endsWith_other_last _ (str ".do") 99%N (str ".pd") 102%N);
        [exact H | discriminate]).
  assert (Hdocx : endsWith (toLowerCase (name f)) (str ".docx") = false)
    by (apply (endsWith_other_last _ (str ".do") 99%N (str ".doc") 120%N);
        [exact H | discriminate]).
  rewrite Hpdf, Hdocx, H. reflexivity.
Qed.

Lemma POST_file request f :
  formData request = Ok (Some (EntryFile f)) ->
  run (POST w request) =
  run (try_catch (emit ev_request_formData ;;; extract w f) on_error).
Proof.
  intros H. unfold POST, run, try_catch, bind, call. rewrite H.
  reflexivity.
Qed.

(** C7: a file whose declared name ends in [.doc] (such a name never
    ends in [.docx]) is answered with status 400 and the message that
    the legacy .doc format is not supported, whatever its content and
    whatever the parsers would do with it: neither is called.  This
    message is not the one for the other unsupported formats. *)
Theorem legacy_doc_rejected request f :
  formData request = Ok (Some (EntryFile f)) ->
  endsWith (name f) (str ".doc") = true ->
  run (POST w request)
  = ([ev_request_formData],
     Ok {| status := 400; body := APIError legacy_doc_message None |})
  /\ legacy_doc_message <> unsupported_message.
Proof.
  intros Hfile Hdoc. split; [|discriminate].
  rewrite (POST_file request f Hfile).
  rewrite extract_doc_name; [reflexivity|].
  apply lowered_suffix; [reflexivity|].
  apply ends_in_any_case_exact; [reflexivity | exact Hdoc].
Qed.

(** C8: when the parser of an uploaded [.pdf] or [.docx] file returns
    and the text it gives has no code unit that is not white space, the
    answer is not the text but the error that the file may be empty or
    corrupted (status 400). *)
Theorem blank_text_rejected request f extractedText :
  formData request = Ok (Some (EntryFile f)) ->
  (endsWith (toLowerCase (name f)) (str ".pdf") = true
   /\ exists text, extractText w (arrayBuffer f) = Ok text
                   /\ joined text = extractedText)
  \/ (endsWith (toLowerCase (name f)) (str ".docx") = true
      /\ mammoth_extractRawText w (arrayBuffer f) = Ok extractedText) ->
  forallb is_ws extractedText = true ->
  snd (run (POST w request))
  = Ok {| status := 400; body := APIError empty_message None |}.
Proof.
  intros Hfile Hparsed Hblank.
  rewrite (POST_file request f Hfile).
  destruct Hparsed as [[Hname (text & Htext & Hjoin)] | [Hname Htext]].
  - rewrite extract_pdf_name by exact Hname.
    unfold run, try_catch, bind, extract_pdf, call, bind, emit.
    rewrite Htext. cbn. rewrite Hjoin. unfold respond.
    rewrite TextSpec.cleanup_blank by exact Hblank. reflexivity.
  - rewrite extract_docx_name by exact Hname.
    unfold run, try_catch, bind, extract_docx, call, bind, emit.
    rewrite Htext. cbn. unfold respond.
    rewrite TextSpec.cleanup_blank by exact Hblank. reflexivity.
Qed.

(** C9: the dispatch does not depend on the letter case of the
    extension, since the name is lowered before its suffix is tested:
    a name ending in [.pdf] in any letter case goes to the PDF
    extractor, one ending in [.docx] in any letter case to the Word
    extractor, and one ending in [.doc] in any letter case gets the
    rejection of the legacy format. *)
Theorem dispatch_ignores_letter_case request f :
  formData request = Ok (Some (EntryFile f)) ->
  (ends_in_any_case (name f) (str ".pdf") ->
   run (POST w request)
   = run (try_catch
            (emit ev_request_formData ;;;
             extractedText <- extract_pdf w (arrayBuffer f) ;;
             ret (respond extractedText))
            on_error))
  /\ (ends_in_any_case (name f) (str ".docx") ->
      run (POST w request)
      = run (try_catch
               (emit ev_request_formData ;;;
                extractedText <- extract_docx w (arrayBuffer f) ;;
                ret (respond extractedText))
               on_error))
  /\ (ends_in_any_case (name f) (str ".doc") ->
      run (POST w request)
      = ([ev_request_formData],
         Ok {| status := 400; body := APIError legacy_doc_message None |})).
Proof.
  intros Hfile. rewrite (POST_file request f Hfile).
  split; [|split]; intros Hext;
    apply lowered_suffix in Hext; try reflexivity.
  - rewrite extract_pdf_name by exact Hext. reflexivity.
  - rewrite extract_docx_name by exact Hext. reflexivity.
  - rewrite extract_doc_name by exact Hext. reflexivity.
Qed.

(** *** Every outcome of the extract route *)

Ltac run_extract :=
  unfold POST, run, try_catch, on_error, extract, extract_pdf, extract_docx,
    call, bind, emit, ret, throw.

Lemma extract_cases request :
  (exists e,
      formData request = Throw e
      /\ run (POST w request)
         = ([ev_request_formData;
             ev_console_error (str "Error extracting text:") e],
            Ok (Outcome.extract_failure e)))
  \/ ((formData request = Ok None
       \/ formData request = Ok (Some (EntryString [])))
      /\ run (POST w request)
         = ([ev_request_formData],
            Ok {| status := 400; body := APIError no_file_message None |}))
  \/ (exists c value,
         formData request = Ok (Some (EntryString (c :: value)))
         /\ run (POST w request)
            = ([ev_request_formData;
                ev_console_error (str "Error extracting text:")
                  (ErrorObject (TypeError_read_of_undefined (str "toLowerCase")))],
               Ok (Outcome.extract_failure
                     (ErrorObject
                        (TypeError_read_of_undefined (str "toLowerCase"))))))
  \/ exists f,
      formData request = Ok (Some (EntryFile f))
      /\ ((Outcome.pdf_name f = true
           /\ ((exists e,
                   extractText w (arrayBuffer f) = Throw e
                   /\ run (POST w request)
                      = ([ev_request_formData; ev_extractText (arrayBuffer f);
                          ev_console_error (str "Error extracting text:") e],
                         Ok (Outcome.extract_failure e)))
               \/ exists text,
                   extractText w (arrayBuffer f) = Ok text
                   /\ run (POST w request)
                      = ([ev_request_formData; ev_extractText (arrayBuffer f)],
                         Ok (respond (joined text)))))
          \/ (Outcome.pdf_name f = false /\ Outcome.docx_name f = true
              /\ ((exists e,
                      mammoth_extractRawText w (arrayBuffer f) = Throw e
                      /\ run (POST w request)
                         = ([ev_request_formData;
                             ev_mammoth_extractRawText (arrayBuffer f);
                             ev_console_error (str "Error extracting text:") e],
                            Ok (Outcome.extract_failure e)))
                  \/ exists extracted,
                      mammoth_extractRawText w (arrayBuffer f) = Ok extracted
                      /\ run (POST w request)
                         = ([ev_request_formData;
                             ev_mammoth_extractRawText (arrayBuffer f)],
                            Ok (respond extracted))))
          \/ (Outcome.pdf_name f = false /\ Outcome.docx_name f = false
              /\ run (POST w request)
                 = ([ev_request_formData],
                    Ok {| status := 400;
                          body := APIError
                                    (if Outcome.doc_name f
                                     then legacy_doc_message
                                     else unsupported_message) None |}))).
Proof.
  destruct (formData request) as [[[f|[|c value]]|]|e] eqn:Hform.
  - right. right. right. exists f. split; [reflexivity|].
    rewrite (POST_file request f Hform).
    unfold Outcome.pdf_name, Outcome.docx_name, Outcome.doc_name.
    destruct (endsWith (toLowerCase (name f)) (str ".pdf")) eqn:Hpdf.
    + left. split; [reflexivity|]. rewrite extract_pdf_name by exact Hpdf.
      unfold run, try_catch, on_error, extract_pdf, call, bind, emit, ret, throw.
      destruct (extractText w (arrayBuffer f)) as [text|e].
      * right. exists text. split; reflexivity.
      * left. exists e. split; reflexivity.
    + right.
      destruct (endsWith (toLowerCase (name f)) (str ".docx")) eqn:Hdocx.
      * left. split; [reflexivity|]. split; [reflexivity|].
        rewrite extract_docx_name by exact Hdocx.
        unfold run, try_catch, on_error, extract_docx, call, bind, emit, ret,
          throw.
        destruct (mammoth_extractRawText w (arrayBuffer f)) as [extracted|e].
        -- right. exists extracted. split; reflexivity.
        -- left. exists e. split; reflexivity.
      * right. split; [reflexivity|]. split; [reflexivity|].
        unfold extract. rewrite Hpdf, Hdocx.
        destruct (endsWith (toLowerCase (name f)) (str ".doc")); reflexivity.
  - right. left. split; [right; reflexivity|].
    run_extract. rewrite Hform. reflexivity.
  - right. right. left. exists c, value. split; [reflexivity|].
    run_extract. rewrite Hform. reflexivity.
  - right. left. split; [left; reflexivity|].
    run_extract. rewrite Hform. reflexivity.
  - left. exists e. split; [reflexivity|].
    run_extract. rewrite Hform. reflexivity.
Qed.

Lemma respond_cases extracted :
  (cleanup extracted = []
   /\ respond extracted
      = {| status := 400; body := APIError empty_message None |})
  \/ (cleanup extracted <> []
      /\ respond extracted
         = {| status := 200; body := ExtractedText (cleanup extracted) |}).
Proof.
  unfold respond. destruct (cleanup extracted) as [|c t].
  - left. split; reflexivity.
  - right. split; [discriminate | reflexivity].
Qed.

(** X3: a response of the extract route that carries a text has status
    200, and the text is what the parser of the file has returned, cleaned:
    it is not empty, has no white space at either end, and its only white
    space is single spaces between other code units. *)
Theorem extracted_text_is_clean request log st t :
  run (POST w request)
  = (log, Ok {| status := st; body := ExtractedText t |}) ->
  st = 200%N
  /\ t <> []
  /\ head_ws t = false /\ trimEnd t = t /\ single_spaced t = true
  /\ exists extracted,
      Outcome.parsed_text w request extracted /\ t = cleanup extracted.
Proof.
  intros Hrun.
  assert (Hclean : forall x,
             head_ws (cleanup x) = false /\ trimEnd (cleanup x) = cleanup x
             /\ single_spaced (cleanup x) = true).
  { intros x. destruct (TextSpec.cleanup_trimmed x) as [H1 H2].
    repeat split; try assumption. apply TextSpec.single_spaced_cleanup. }
  destruct (extract_cases request)
    as [(e & _ & H) | [(_ & H) | [(c & value & _ & H)
        | (f & Hf & [(Hpdf & [(e & _ & H) | (text & Ht & H)])
         | [(Hpdf & Hdocx & [(e & _ & H) | (x & Hx & H)]) | (_ & _ & H)]])]]];
    rewrite H in Hrun; try discriminate.
  - destruct (respond_cases (joined text)) as [[_ E] | [Hne E]];
      rewrite E in Hrun; [discriminate|].
    injection Hrun as _ <- <-.
    destruct (Hclean (joined text)) as (H1 & H2 & H3).
    repeat split; try assumption.
    exists (joined text). split; [|reflexivity].
    exists f. split; [exact Hf|]. left. split; [exact Hpdf|]. eauto.
  - destruct (respond_cases x) as [[_ E] | [Hne E]];
      rewrite E in Hrun; [discriminate|].
    injection Hrun as _ <- <-.
    destruct (Hclean x) as (H1 & H2 & H3).
    repeat split; try assumption.
    exists x. split; [|reflexivity].
    exists f. split; [exact Hf|]. right. auto.
Qed.

(** X4: a parser is called only for a file whose lowered name has its
    extension, and with the content of that file: unpdf for [.pdf], mammoth
    for [.docx] (and not [.pdf]); no request has more than one call of a
    parser. *)
Theorem parser_called_for_its_extension request :
  (forall data,
      In (ev_extractText data) (fst (run (POST w request))) ->
      exists f, formData request = Ok (Some (EntryFile f))
                /\ Outcome.pdf_name f = true /\ data = arrayBuffer f)
  /\ (forall buffer,
         In (ev_mammoth_extractRawText buffer) (fst (run (POST w request))) ->
         exists f, formData request = Ok (Some (EntryFile f))
                   /\ Outcome.pdf_name f = false /\ Outcome.docx_name f = true
                   /\ buffer = arrayBuffer f)
  /\ length (filter Outcome.is_parser_call (fst (run (POST w request)))) <= 1.
Proof.
  destruct (extract_cases request)
    as [(e & _ & H) | [(_ & H) | [(c & value & _ & H)
        | (f & Hf & [(Hpdf & [(e & _ & H) | (text & Ht & H)])
         | [(Hpdf & Hdocx & [(e & _ & H) | (x & Hx & H)]) | (_ & _ & H)]])]]];
    rewrite H; cbn; (split; [|split; [|lia]]); intros d Hin;
    repeat (destruct Hin as [Hin|Hin]; try discriminate);
    try contradiction; injection Hin as <-; exists f; auto.
Qed.

(** X5: the extract route answers every request; its status is 500
    exactly when something has thrown under its [try]: the reading of the
    form, the reading of the name when the field [file] is a text that is
    not empty (it has passed the test of line 10 and has no name), or the
    parser of the file.  The response then carries the message of what was
    thrown (or [Unknown error] when that is not an [Error]). *)
Theorem extract_failure_iff request :
  exists response,
    snd (run (POST w request)) = Ok response
    /\ (status response = 500%N <-> exists e, Outcome.extract_raised w request e)
    /\ forall e, Outcome.extract_raised w request e ->
                 response = Outcome.extract_failure e.
Proof.
  assert (Hfile : forall f,
             formData request = Ok (Some (EntryFile f)) ->
             forall e,
               Outcome.extract_raised w request e ->
               (Outcome.pdf_name f = true
                /\ extractText w (arrayBuffer f) = Throw e)
               \/ (Outcome.pdf_name f = false /\ Outcome.docx_name f = true
                   /\ mammoth_extractRawText w (arrayBuffer f) = Throw e)).
  { intros f Hf e [He | [(c & value & He & _) | (f' & He & Hcase)]];
      congruence. }
  unfold Outcome.extract_raised.
  destruct (extract_cases request)
    as [(e & Hf & H) | [([Hf|Hf] & H) | [(c & value & Hf & H)
        | (f & Hf & [(Hpdf & [(e & Hp & H) | (text & Hp & H)])
         | [(Hpdf & Hdocx & [(e & Hp & H) | (x & Hp & H)])
           | (Hpdf & Hdocx & H)]])]]];
    rewrite H; cbn [snd]; eexists; (split; [reflexivity|]).
  - split; [split; [intros _; exists e; left; exact Hf | reflexivity]|].
    intros e' [He | [(c & value & He & _) | (f & He & _)]]; congruence.
  - split; [split; [discriminate|]|].
    + intros [e [He | [(c & value & He & _) | (f & He & _)]]]; congruence.
    + intros e [He | [(c & value & He & _) | (f & He & _)]]; congruence.
  - split; [split; [discriminate|]|].
    + intros [e [He | [(c & value & He & _) | (f & He & _)]]]; congruence.
    + intros e [He | [(c & value & He & _) | (f & He & _)]]; congruence.
  - split; [split; [intros _; eexists; right; left; exists c, value;
                    split; [exact Hf | reflexivity]
                   | reflexivity]|].
    intros e' [He | [(c' & value' & He & ->) | (f & He & _)]];
      [congruence | reflexivity | congruence].
  - split; [split; [intros _; exists e; right; right; exists f; auto
                   | reflexivity]|].
    intros e' He. destruct (Hfile f Hf e' He) as [[_ He'] | (Hpdf' & _)];
      congruence.
  - split; [split|].
    + destruct (respond_cases (joined text)) as [[_ E] | [_ E]]; rewrite E;
        discriminate.
    + intros [e He]. exfalso.
      destruct (Hfile f Hf e He) as [[_ He'] | (Hpdf' & _)]; congruence.
    + intros e He. exfalso.
      destruct (Hfile f Hf e He) as [[_ He'] | (Hpdf' & _)]; congruence.
  - split; [split; [intros _; exists e; right; right; exists f; auto
                   | reflexivity]|].
    intros e' He. destruct (Hfile f Hf e' He) as [[Hpdf' _] | (_ & _ & He')];
      congruence.
  - split; [split|].
    + destruct (respond_cases x) as [[_ E] | [_ E]]; rewrite E; discriminate.
    + intros [e He]. exfalso.
      destruct (Hfile f Hf e He) as [[Hpdf' _] | (_ & _ & He')]; congruence.
    + intros e He. exfalso.
      destruct (Hfile f Hf e He) as [[Hpdf' _] | (_ & _ & He')]; congruence.
  - split; [split|].
    + destruct (Outcome.doc_name f); discriminate.
    + intros [e He]. exfalso.
      destruct (Hfile f Hf e He) as [[Hpdf' _] | (_ & Hdocx' & _)]; congruence.
    + intros e He. exfalso.
      destruct (Hfile f Hf e He) as [[Hpdf' _] | (_ & Hdocx' & _)]; congruence.
Qed.

(** X6: when the parser of the file returns a text with at least one code
    unit that is not white space, the response is that text cleaned, with
    status 200. *)
Theorem visible_text_returned request extracted :
  Outcome.parsed_text w request extracted ->
  forallb is_ws extracted = false ->
  snd (run (POST w request))
  = Ok {| status := 200; body := ExtractedText (cleanup extracted) |}.
Proof.
  intros (f & Hf & Hparsed) Hvisible.
  assert (Hne : cleanup extracted <> []).
  { intros H. apply TextSpec.cleanup_nil_blank in H. congruence. }
  assert (Hresp : respond extracted
                  = {| status := 200;
                       body := ExtractedText (cleanup extracted) |}).
  { destruct (respond_cases extracted) as [[E _] | [_ E]]; [contradiction|].
    exact E. }
  destruct (extract_cases request)
    as [(e & Hf' & H) | [([Hf'|Hf'] & H) | [(c & value & Hf' & H)
        | (f' & Hf' & Hcase)]]]; try congruence.
  assert (f' = f) by congruence. subst f'.
  destruct Hparsed as [(Hpdf & text & Ht & <-) | (Hpdf & Hdocx & Ht)];
    destruct Hcase
      as [(Hpdf' & [(e & Hp & H) | (text' & Hp & H)])
         | [(Hpdf' & Hdocx' & [(e & Hp & H) | (x & Hp & H)])
           | (Hpdf' & Hdocx' & H)]];
    try congruence; rewrite H; cbn [snd]; f_equal.
  - assert (text' = text) by congruence. subst text'. exact Hresp.
  - assert (x = extracted) by congruence. subst x. exact Hresp.
Qed.

(** X7: a file whose lowered name ends neither in [.pdf] nor in [.docx]
    is refused with status 400 before any parser is called, with the
    message for the legacy format when the name ends in [.doc] and with
    the general one otherwise. *)
Theorem other_names_rejected request f :
  formData request = Ok (Some (EntryFile f)) ->
  Outcome.pdf_name f = false ->
  Outcome.docx_name f = false ->
  run (POST w request)
  = ([ev_request_formData],
     Ok {| status := 400;
           body := APIError
                     (if Outcome.doc_name f
                      then legacy_doc_message
                      else unsupported_message) None |}).
Proof.
  intros Hf Hpdf Hdocx.
  destruct (extract_cases request)
    as [(e & Hf' & H) | [([Hf'|Hf'] & H) | [(c & value & Hf' & H)
        | (f' & Hf' & Hcase)]]]; try congruence.
  assert (f' = f) by congruence. subst f'.
  destruct Hcase as [(Hpdf' & _) | [(_ & Hdocx' & _) | (_ & _ & H)]];
    try congruence.
Qed.

End Route.

Lemma legacy_doc_rejected_witness :
  run (POST (rt := Sample.runtime) Sample.no_parser (Sample.upload "resume.doc"))
  = ([ev_request_formData],
     Ok {| status := 400; body := APIError legacy_doc_message None |})
  /\ legacy_doc_message <> unsupported_message.
Proof.
  apply (legacy_doc_rejected (rt := Sample.runtime) Sample.no_parser
           (Sample.upload "resume.doc")
           {| name := str "resume.doc"; arrayBuffer := [] |});
    reflexivity.
Defined.

Lemma blank_text_rejected_witness :
  snd (run (POST (rt := Sample.runtime) Sample.blank_pages (Sample.upload "scan.pdf")))
  = Ok {| status := 400; body := APIError empty_message None |}
  /\ snd (run (POST (rt := Sample.runtime) Sample.blank_pages (Sample.upload "empty.docx")))
     = Ok {| status := 400; body := APIError empty_message None |}.
Proof.
  split.
  - apply (blank_text_rejected (rt := Sample.runtime) Sample.blank_pages
             (Sample.upload "scan.pdf")
             {| name := str "scan.pdf"; arrayBuffer := [] |}
             [SP; 9%N; LF; LF; LF]).
    + reflexivity.
    + left. split; [reflexivity|].
      exists (Pages [[SP; 9%N]; []; [LF]]). split; reflexivity.
    + reflexivity.
  - apply (blank_text_rejected (rt := Sample.runtime) Sample.blank_pages
             (Sample.upload "empty.docx")
             {| name := str "empty.docx"; arrayBuffer := [] |}
             [SP; LF; 160%N]).
    + reflexivity.
    + right. split; reflexivity.
    + reflexivity.
Defined.

Lemma dispatch_ignores_letter_case_witness :
  run (POST (rt := Sample.runtime) Sample.blank_pages (Sample.upload "CV.PdF"))
  = ([ev_request_formData; ev_extractText []],
     Ok {| status := 400; body := APIError empty_message None |})
  /\ run (POST (rt := Sample.runtime) Sample.blank_pages (Sample.upload "CV.DocX"))
     = ([ev_request_formData; ev_mammoth_extractRawText []],
        Ok {| status := 400; body := APIError empty_message None |})
  /\ run (POST (rt := Sample.runtime) Sample.blank_pages (Sample.upload "CV.DOC"))
     = ([ev_request_formData],
        Ok {| status := 400; body := APIError legacy_doc_message None |}).
Proof.
  split; [|split].
  - apply (proj1 (dispatch_ignores_letter_case (rt := Sample.runtime)
                    Sample.blank_pages (Sample.upload "CV.PdF")
                    {| name := str "CV.PdF"; arrayBuffer := [] |} eq_refl)).
    exists (str "CV"), (str ".PdF"). split; reflexivity.
  - apply (proj1 (proj2 (dispatch_ignores_letter_case (rt := Sample.runtime)
                    Sample.blank_pages (Sample.upload "CV.DocX")
                    {| name := str "CV.DocX"; arrayBuffer := [] |} eq_refl))).
    exists (str "CV"), (str ".DocX"). split; reflexivity.
  - apply (proj2 (proj2 (dispatch_ignores_letter_case (rt := Sample.runtime)
                    Sample.blank_pages (Sample.upload "CV.DOC")
                    {| name := str "CV.DOC"; arrayBuffer := [] |} eq_refl))).
    exists (str "CV"), (str ".DOC"). split; reflexivity.
Defined.

Lemma extracted_text_is_clean_witness :
  200%N = 200%N
  /\ str "Jane Doe Engineer" <> []
  /\ head_ws (str "Jane Doe Engineer") = false
  /\ trimEnd (str "Jane Doe Engineer") = str "Jane Doe Engineer"
  /\ single_spaced (str "Jane Doe Engineer") = true
  /\ exists extracted,
      Outcome.parsed_text (rt := Sample.runtime) Sample.two_pages
        (Sample.upload "CV.pdf") extracted
      /\ str "Jane Doe Engineer" = cleanup extracted.
Proof.
  exact (extracted_text_is_clean (rt := Sample.runtime) Sample.two_pages
           (Sample.upload "CV.pdf")
           [ev_request_formData; ev_extractText []] 200%N
           (str "Jane Doe Engineer") eq_refl).
Defined.

Lemma visible_text_returned_witness :
  snd (run (POST (rt := Sample.runtime) Sample.two_pages
              (Sample.upload "cv.docx")))
  = Ok {| status := 200; body := ExtractedText (str "Jane Doe Engineer") |}.
Proof.
  apply (visible_text_returned (rt := Sample.runtime) Sample.two_pages
           (Sample.upload "cv.docx")
           (str "Jane Doe" ++ [LF; LF; LF] ++ str "Engineer")).
  - exists {| name := str "cv.docx"; arrayBuffer := [] |}.
    split; [reflexivity|]. right. repeat split; reflexivity.
  - reflexivity.
Defined.

Lemma other_names_rejected_witness :
  run (POST (rt := Sample.runtime) Sample.two_pages (Sample.upload "notes.txt"))
  = ([ev_request_formData],
     Ok {| status := 400; body := APIError unsupported_message None |}).
Proof.
  exact (other_names_rejected (rt := Sample.runtime) Sample.two_pages
           (Sample.upload "notes.txt")
           {| name := str "notes.txt"; arrayBuffer := [] |}
           eq_refl eq_refl eq_refl).
Defined.

End ExtractSpec.

(** ** The analysis route *)
Module AnalyzeSpec.
Import Analyze.

(** Every request gets a response: nothing escapes the [catch] clause. *)
Lemma analyze_responds {rt : Runtime} (w : World) request :
  exists log response, run (POST w request) = (log, Ok response).
Proof.
  apply EffectSpec.try_catch_returns. intros e log.
  unfold on_error, bind, emit, ret. eauto.
Qed.

Example invalid_structure_ex :
  snd (run (POST (rt := Sample.runtime)
              (Sample.replying (Some Sample.reply_no_score))
              (Sample.analyze_request Sample.resume)))
  = Ok {| status := 500;
          body := APIError invalid_structure_message
                    (Some Sample.reply_no_score) |}.
Proof. reflexivity. Qed.

Example no_content_ex :
  snd (run (POST (rt := Sample.runtime) (Sample.replying None)
              (Sample.analyze_request Sample.resume)))
  = Ok {| status := 500; body := APIError no_response_message None |}.
Proof. reflexivity. Qed.

Ltac unfold_M :=
  unfold run, try_catch, on_error, analyze, validate, get, call, lift, bind,
    emit, ret, throw.

Section Route.
Context {rt : Runtime} (w : World).

Lemma member_not_null v name x : member v name = Some x -> v <> JNull.
Proof. intros H ->. discriminate. Qed.

Lemma json_eq_JNull v : v = JNull \/ v <> JNull.
Proof. destruct v; (left; reflexivity) || (right; discriminate). Qed.

Lemma get_member v name log :
  v <> JNull -> get v name log = (log, Ok (member v name)).
Proof. intros H. destruct v; try reflexivity. congruence. Qed.

Lemma trim_length s : (length (trim s) =? 0) = false <-> trim s <> [].
Proof.
  destruct (trim s); simpl; split; intros; congruence.
Qed.

(** The handler up to the call of the endpoint, for a request that
    passes the check of its resume text. *)
Lemma POST_valid request body s :
  new_OpenAI w (OPENAI_API_KEY w) = Ok tt ->
  json_body request = Ok body ->
  member body "resumeText" = Some (JString s) ->
  trim s <> [] ->
  run (POST w request)
  = try_catch (analyze w body s) on_error
      [ev_new_OpenAI (OPENAI_API_KEY w); ev_request_json].
Proof.
  intros Hnew Hbody Htext Htrim.
  unfold POST, run, try_catch, call, bind, emit, ret. rewrite Hnew, Hbody.
  cbn. rewrite (get_member body "resumeText" _ (member_not_null _ _ _ Htext)).
  rewrite Htext.
  assert (Hs : truthy (Some (JString s)) = true).
  { destruct s; [|reflexivity]. exfalso. apply Htrim. reflexivity. }
  rewrite Hs. cbn. apply trim_length in Htrim. rewrite Htrim. reflexivity.
Qed.

Lemma validate_log c log : fst (validate c log) = log.
Proof.
  unfold validate. destruct (JSON_parse c) as [v|]; [|reflexivity].
  destruct v; try reflexivity; unfold bind, get, ret; cbn;
    repeat match goal with
           | |- context [if ?b then _ else _] => destruct b; cbn
           end; reflexivity.
Qed.

Ltac no_call :=
  let p := fresh "p" in
  let Hin := fresh "Hin" in
  intros p Hin; cbn in Hin;
  repeat (destruct Hin as [Hin|Hin]; [discriminate|]); exact Hin.

(** [analyze] when the prompt cannot be built: the catch clause. *)
Lemma analyze_no_prompt body s e log :
  body <> JNull ->
  buildPrompt s (member body "jobDescription") = Throw e ->
  try_catch (analyze w body s) on_error log
  = (log ++ [ev_console_error (str "Error analyzing resume:") e],
     Ok (Outcome.analyze_failure e)).
Proof.
  intros Hbody Hprompt. unfold analyze, try_catch, bind at 1.
  rewrite (get_member body "jobDescription" log Hbody).
  unfold bind at 1, lift. rewrite Hprompt. reflexivity.
Qed.

(** [analyze] when the prompt is built: the call, and what follows it. *)
Lemma analyze_prompt body s prompt log :
  body <> JNull ->
  buildPrompt s (member body "jobDescription") = Ok prompt ->
  try_catch (analyze w body s) on_error log
  = try_catch
      (completion <- call (ev_chat_completions_create prompt)
                          (chat_completions_create w prompt) ;;
       match responseContent completion with
       | None =>
           ret (NextResponse_json (APIError no_response_message None)
                  (Some 500%N))
       | Some responseContent =>
           if js_string_eqb responseContent [] then
             ret (NextResponse_json (APIError no_response_message None)
                    (Some 500%N))
           else validate responseContent
       end)
      on_error log.
Proof.
  intros Hbody Hprompt. unfold analyze, try_catch, bind at 1.
  rewrite (get_member body "jobDescription" log Hbody).
  unfold bind at 1, lift. rewrite Hprompt. reflexivity.
Qed.

(** What [analyze] adds to the log: the call, and at most the trace of
    an exception after it; or, when the prompt cannot be built, that
    trace only. *)
Lemma analyze_log body s log :
  body <> JNull ->
  (exists prompt tail,
      buildPrompt s (member body "jobDescription") = Ok prompt
      /\ fst (try_catch (analyze w body s) on_error log)
         = log ++ ev_chat_completions_create prompt :: tail
      /\ forall p, ~ In (ev_chat_completions_create p) tail)
  \/ exists e,
      buildPrompt s (member body "jobDescription") = Throw e
      /\ try_catch (analyze w body s) on_error log
         = (log ++ [ev_console_error (str "Error analyzing resume:") e],
            Ok (Outcome.analyze_failure e)).
Proof.
  intros Hbody.
  destruct (buildPrompt s (member body "jobDescription")) as [prompt|e]
    eqn:Hprompt.
  2: { right. exists e. split; [reflexivity|].
       exact (analyze_no_prompt body s e log Hbody Hprompt). }
  left. exists prompt.
  rewrite (analyze_prompt body s prompt log Hbody Hprompt).
  unfold try_catch, call, bind, emit, ret, throw.
  destruct (chat_completions_create w _) as [completion|e].
  - destruct (responseContent completion) as [c|].
    + destruct (js_string_eqb c []).
      * exists []. split; [reflexivity|]. split; [reflexivity | no_call].
      * pose proof (validate_log c
                      (log ++ [ev_chat_completions_create prompt])) as Hlog.
        destruct (validate c _) as [log' [r|e]]; cbn in Hlog; subst log'.
        -- exists []. split; [reflexivity|]. split; [reflexivity | no_call].
        -- exists [ev_console_error (str "Error analyzing resume:") e].
           split; [reflexivity|].
           unfold on_error, bind, emit, ret. cbn.
           rewrite <- app_assoc. split; [reflexivity | no_call].
    + exists []. split; [reflexivity|]. split; [reflexivity | no_call].
  - exists [ev_console_error (str "Error analyzing resume:") e].
    split; [reflexivity|].
    unfold on_error, bind, emit, ret. cbn.
    rewrite <- app_assoc. split; [reflexivity | no_call].
Qed.

(** *** Every outcome of the analysis route *)

Lemma shape_ok_not_null v : Outcome.shape_ok v = true -> v <> JNull.
Proof. intros H ->. discriminate. Qed.

Lemma validate_shape c v log :
  JSON_parse c = Some v ->
  v <> JNull ->
  validate c log
  = (log, Ok (if Outcome.shape_ok v
              then {| status := 200; body := Analysis (stringified v) |}
              else Outcome.invalid_structure c)).
Proof.
  intros Hparse Hv. unfold validate, bind, Outcome.shape_ok. rewrite Hparse.
  rewrite (get_member v "resumeScore" _ Hv). cbn.
  destruct (typeof_number (member v "resumeScore")); [|reflexivity]. cbn.
  rewrite (get_member v "strengths" _ Hv). cbn.
  destruct (Array_isArray (member v "strengths")); [|reflexivity]. cbn.
  rewrite (get_member v "weaknesses" _ Hv). cbn.
  destruct (Array_isArray (member v "weaknesses")); reflexivity.
Qed.

(** What the handler does with a request that has passed the check of
    its resume text, by what the call and [JSON.parse] answer. *)
Lemma analyze_cases body s prompt log :
  body <> JNull ->
  buildPrompt s (member body "jobDescription") = Ok prompt ->
  let called := log ++ [ev_chat_completions_create prompt] in
  (exists e,
      chat_completions_create w prompt = Throw e
      /\ try_catch (analyze w body s) on_error log
         = (called ++ [ev_console_error (str "Error analyzing resume:") e],
            Ok (Outcome.analyze_failure e)))
  \/ exists completion,
      chat_completions_create w prompt = Ok completion
      /\ ((Outcome.no_content (responseContent completion) = true
           /\ try_catch (analyze w body s) on_error log
              = (called, Ok Outcome.no_response))
          \/ exists c,
              responseContent completion = Some c /\ c <> []
              /\ ((JSON_parse c = None
                   /\ try_catch (analyze w body s) on_error log
                      = (called, Ok (Outcome.parse_failure c)))
                  \/ (JSON_parse c = Some JNull
                      /\ try_catch (analyze w body s) on_error log
                         = (called
                            ++ [ev_console_error (str "Error analyzing resume:")
                                  (ErrorObject
                                     (TypeError_read_of_null (str "resumeScore")))],
                            Ok (Outcome.analyze_failure
                                  (ErrorObject
                                     (TypeError_read_of_null (str "resumeScore"))))))
                  \/ exists v,
                      JSON_parse c = Some v /\ v <> JNull
                      /\ try_catch (analyze w body s) on_error log
                         = (called,
                            Ok (if Outcome.shape_ok v
                                then {| status := 200;
                                        body := Analysis (stringified v) |}
                                else Outcome.invalid_structure c)))).
Proof.
  intros Hbody Hprompt called. subst called.
  rewrite (analyze_prompt body s prompt log Hbody Hprompt).
  remember (try_catch _ on_error log) as R eqn:HR.
  unfold try_catch, call, bind, emit, ret, throw in HR.
  destruct (chat_completions_create w _) as [completion|e].
  - right. exists completion. split; [reflexivity|].
    destruct (responseContent completion) as [c|];
      [|left; split; [reflexivity | exact HR]].
    destruct c as [|x c]; [left; split; [reflexivity | exact HR]|].
    right. exists (x :: c). split; [reflexivity|]. split; [discriminate|].
    change (js_string_eqb (x :: c) []) with false in HR. cbv iota in HR.
    destruct (JSON_parse (x :: c)) as [v|] eqn:Hparse.
    + destruct (json_eq_JNull v) as [->|Hv].
      * right. left. split; [reflexivity|]. subst R.
        unfold validate. rewrite Hparse. unfold on_error, bind, emit, ret.
        cbn. rewrite <- app_assoc. reflexivity.
      * right. right. exists v. split; [reflexivity|]. split; [exact Hv|].
        rewrite (validate_shape _ v _ Hparse Hv) in HR. exact HR.
    + left. split; [reflexivity|]. subst R.
      unfold validate. rewrite Hparse. reflexivity.
  - left. exists e. split; [reflexivity|]. subst R.
    unfold on_error, bind, emit, ret. cbn. rewrite <- app_assoc. reflexivity.
Qed.

Ltac silent_log :=
  eexists; split; [reflexivity | no_call].

(** The log of a request starts with the construction of the client;
    [chat.completions.create] is called for the requests that pass the
    check of the resume text and whose prompt can be built, once, and for
    no other. *)
Lemma POST_log request :
  (new_OpenAI w (OPENAI_API_KEY w) = Ok tt
   /\ exists body s prompt tail,
       json_body request = Ok body
       /\ member body "resumeText" = Some (JString s)
       /\ trim s <> []
       /\ buildPrompt s (member body "jobDescription") = Ok prompt
       /\ fst (run (POST w request))
          = [ev_new_OpenAI (OPENAI_API_KEY w); ev_request_json;
             ev_chat_completions_create prompt] ++ tail
       /\ forall p, ~ In (ev_chat_completions_create p) tail)
  \/ exists rest,
       fst (run (POST w request)) = ev_new_OpenAI (OPENAI_API_KEY w) :: rest
       /\ forall p, ~ In (ev_chat_completions_create p) rest.
Proof.
  destruct (new_OpenAI w (OPENAI_API_KEY w)) as [[]|e] eqn:Hnew.
  2: { right. unfold POST. unfold_M. rewrite Hnew. silent_log. }
  destruct (json_body request) as [body|e] eqn:Hbody.
  2: { right. unfold POST. unfold_M. rewrite Hnew, Hbody. silent_log. }
  destruct (member body "resumeText") as [[| | |s| |]|] eqn:Htext.
  4: { destruct (trim s) as [|c t] eqn:Htrim.
       - right. unfold POST. unfold_M. rewrite Hnew, Hbody.
         destruct body; try discriminate. cbn in Htext |- *.
         rewrite Htext. cbn. destruct (js_string_eqb s []); cbn.
         + silent_log.
         + rewrite Htrim. silent_log.
       - assert (Hne : trim s <> []) by (rewrite Htrim; discriminate).
         rewrite (POST_valid request body s Hnew Hbody Htext Hne).
         destruct (analyze_log body s
                     [ev_new_OpenAI (OPENAI_API_KEY w); ev_request_json]
                     (member_not_null _ _ _ Htext))
           as [(prompt & tail & Hprompt & Hlog & Htail) | (e & Hprompt & Hrun)].
         + left. split; [reflexivity|].
           exists body, s, prompt, tail. repeat split; try assumption.
         + right. rewrite Hrun. silent_log. }
  6: { right. unfold POST, run, try_catch, call, bind, emit, ret.
       rewrite Hnew, Hbody. cbn.
       destruct (json_eq_JNull body) as [->|Hnn]; [silent_log|].
       rewrite (get_member body "resumeText" _ Hnn), Htext. silent_log. }
  all: right; unfold POST, run, try_catch, call, bind, emit, ret.
  all: rewrite Hnew, Hbody; cbn.
  all: rewrite (get_member body "resumeText" _ (member_not_null _ _ _ Htext)).
  all: rewrite Htext; cbn.
  all: try silent_log.
  - destruct b; silent_log.
  - destruct n; silent_log.
Qed.

(** What the handler does before it builds the prompt, by the key, the
    body and its [resumeText]. *)
Lemma POST_cases request :
  let constructed := [ev_new_OpenAI (OPENAI_API_KEY w)] in
  let read := constructed ++ [ev_request_json] in
  let no_trim :=
    ErrorObject (TypeError_not_a_function (str "body.resumeText.trim")) in
  let null_body := ErrorObject (TypeError_read_of_null (str "resumeText")) in
  (exists e,
      new_OpenAI w (OPENAI_API_KEY w) = Throw e
      /\ run (POST w request)
         = (constructed ++ [ev_console_error (str "Error analyzing resume:") e],
            Ok (Outcome.analyze_failure e)))
  \/ (new_OpenAI w (OPENAI_API_KEY w) = Ok tt
      /\ ((exists e,
              json_body request = Throw e
              /\ run (POST w request)
                 = (read ++ [ev_console_error (str "Error analyzing resume:") e],
                    Ok (Outcome.analyze_failure e)))
          \/ (json_body request = Ok JNull
              /\ run (POST w request)
                 = (read ++ [ev_console_error (str "Error analyzing resume:")
                               null_body],
                    Ok (Outcome.analyze_failure null_body)))
          \/ exists body,
              json_body request = Ok body /\ body <> JNull
              /\ ((Outcome.blank_resumeText (member body "resumeText") = true
                   /\ run (POST w request) = (read, Ok Outcome.required))
                  \/ (truthy (member body "resumeText") = true
                      /\ (forall s, member body "resumeText" <> Some (JString s))
                      /\ run (POST w request)
                         = (read ++ [ev_console_error
                                       (str "Error analyzing resume:") no_trim],
                            Ok (Outcome.analyze_failure no_trim)))
                  \/ exists s,
                      member body "resumeText" = Some (JString s)
                      /\ trim s <> []
                      /\ run (POST w request)
                         = try_catch (analyze w body s) on_error read))).
Proof.
  cbv zeta.
  destruct (new_OpenAI w (OPENAI_API_KEY w)) as [[]|e] eqn:Hnew.
  2: { left. exists e. split; [reflexivity|].
       unfold POST. unfold_M. rewrite Hnew. reflexivity. }
  right. split; [reflexivity|].
  destruct (json_body request) as [body|e] eqn:Hbody.
  2: { left. exists e. split; [reflexivity|].
       unfold POST. unfold_M. rewrite Hnew, Hbody. reflexivity. }
  right.
  destruct (json_eq_JNull body) as [->|Hnn].
  { left. split; [reflexivity|].
    unfold POST. unfold_M. rewrite Hnew, Hbody. reflexivity. }
  right. exists body. split; [reflexivity|]. split; [exact Hnn|].
  assert (Hrun : run (POST w request)
                 = try_catch
                     (let resumeText := member body "resumeText" in
                      if negb (truthy resumeText) then
                        ret (NextResponse_json (APIError required_message None)
                               (Some 400%N))
                      else
                        match resumeText with
                        | Some (JString s) =>
                            if length (trim s) =? 0 then
                              ret (NextResponse_json
                                     (APIError required_message None)
                                     (Some 400%N))
                            else analyze w body s
                        | _ =>
                            throw (ErrorObject
                                     (TypeError_not_a_function
                                        (str "body.resumeText.trim")))
                        end)
                     on_error
                     [ev_new_OpenAI (OPENAI_API_KEY w); ev_request_json]).
  { unfold POST, run, try_catch, call, bind, emit, ret.
    rewrite Hnew, Hbody. cbn.
    rewrite (get_member body "resumeText" _ Hnn). reflexivity. }
  rewrite Hrun. clear Hrun. cbv zeta. unfold Outcome.blank_resumeText.
  destruct (member body "resumeText") as [v|] eqn:Htext; [|left; split; reflexivity].
  destruct (truthy (Some v)) eqn:Htruthy; [|left; split; reflexivity].
  cbn [negb orb].
  destruct v as [| b | n | s | items | members];
    try (right; left; split; [reflexivity|]; split;
         [intros s0; discriminate | reflexivity]).
  destruct (length (trim s) =? 0) eqn:Htrim.
  - left. split; reflexivity.
  - right. right. exists s. split; [reflexivity|].
    split; [apply trim_length; exact Htrim | reflexivity].
Qed.

Lemma POST_log_no_call request :
  (forall body s,
      json_body request = Ok body ->
      member body "resumeText" = Some (JString s) ->
      trim s = []) ->
  forall p, ~ In (ev_chat_completions_create p) (fst (run (POST w request))).
Proof.
  intros Hblank p Hin.
  destruct (POST_log request)
    as [(_ & body & s & _ & _ & Hbody & Htext & Htrim & _)
       | (rest & Hlog & Hrest)].
  - exact (Htrim (Hblank body s Hbody Htext)).
  - rewrite Hlog in Hin. destruct Hin as [Hin|Hin]; [discriminate|].
    exact (Hrest p Hin).
Qed.

Lemma upstream_content_inv request c :
  upstream_content w request c ->
  new_OpenAI w (OPENAI_API_KEY w) = Ok tt
  /\ exists body s prompt completion,
      json_body request = Ok body
      /\ member body "resumeText" = Some (JString s)
      /\ trim s <> []
      /\ buildPrompt s (member body "jobDescription") = Ok prompt
      /\ chat_completions_create w prompt = Ok completion
      /\ responseContent completion = Some c.
Proof.
  intros (prompt & completion & Hin & Hreply & Hcontent).
  destruct (POST_log request)
    as [(Hnew & body & s & prompt' & tail & Hbody & Htext & Htrim & Hprompt
         & Hlog & Htail)
       | (rest & Hlog & Hnone)].
  - split; [exact Hnew|]. exists body, s, prompt', completion.
    repeat split; try assumption.
    rewrite Hlog in Hin. cbn in Hin.
    destruct Hin as [Hin|[Hin|[Hin|Hin]]]; try discriminate.
    + injection Hin as <-. exact Hreply.
    + exfalso. exact (Htail prompt Hin).
  - exfalso. rewrite Hlog in Hin.
    destruct Hin as [Hin|Hin]; [discriminate|]. exact (Hnone prompt Hin).
Qed.

(** The handler after the call has returned the content [c]. *)
Lemma POST_reply request c :
  upstream_content w request c ->
  exists log,
    run (POST w request)
    = try_catch
        (if js_string_eqb c [] then
           ret (NextResponse_json (APIError no_response_message None)
                  (Some 500%N))
         else validate c)
        on_error log.
Proof.
  intros H. apply upstream_content_inv in H.
  destruct H as (Hnew & body & s & prompt & completion & Hbody & Htext & Htrim
                 & Hprompt & Hreply & Hcontent).
  rewrite (POST_valid request body s Hnew Hbody Htext Htrim).
  rewrite (analyze_prompt body s prompt _ (member_not_null _ _ _ Htext) Hprompt).
  unfold try_catch, call, bind at 1, bind at 1, emit. rewrite Hreply. cbn.
  rewrite Hcontent. eexists. reflexivity.
Qed.

Lemma not_empty_eqb c : c <> [] -> js_string_eqb c [] = false.
Proof. destruct c; [congruence | reflexivity]. Qed.

(** C2, amended: for a request whose resume text is not empty, when
    the content returned for it parses as JSON with a numeric [resumeScore]
    and arrays for [strengths] and [weaknesses], the response has status
    200 and its body is the parsed value as [JSON.stringify] writes it.
    Nothing is clamped, rounded or counted: every member whose numbers are
    all finite, whatever their range, arrives as it was parsed, a
    [matchPercentage] of [null] as [null]; and the whole value arrives
    unchanged exactly when none of its numbers is infinite, [NaN] or [-0].
    (A request has a reply only if its resume text has passed the check,
    see [upstream_content_inv]: a text of white space only has none.) *)
Theorem parsed_reply_forwarded request body s c v n strengths weaknesses :
  json_body request = Ok body ->
  member body "resumeText" = Some (JString s) ->
  s <> [] ->
  upstream_content w request c ->
  JSON_parse c = Some v ->
  member v "resumeScore" = Some (JNumber n) ->
  member v "strengths" = Some (JArray strengths) ->
  member v "weaknesses" = Some (JArray weaknesses) ->
  snd (run (POST w request))
  = Ok {| status := 200; body := Analysis (stringified v) |}
  /\ (stringified v = v <-> finite_numbers v = true)
  /\ forall name x,
      member v name = Some x ->
      finite_numbers x = true ->
      member (stringified v) name = Some x.
Proof.
  intros _ _ _ Hup Hparse Hscore Hst Hwk.
  split; [|split; [apply JsonSpec.stringified_fixed
                  | apply JsonSpec.member_stringified_fixed]].
  destruct (POST_reply request c Hup) as [log ->].
  assert (Hc : c <> []).
  { intros ->. rewrite JSON_parse_empty in Hparse. discriminate. }
  rewrite (not_empty_eqb c Hc).
  unfold try_catch, validate, bind. rewrite Hparse.
  pose proof (member_not_null _ _ _ Hscore) as Hv.
  rewrite (get_member v "resumeScore" _ Hv), Hscore. cbn.
  rewrite (get_member v "strengths" _ Hv), Hst. cbn.
  rewrite (get_member v "weaknesses" _ Hv), Hwk. reflexivity.
Qed.

(** X14: when the completion endpoint answers with content that parses
    as a JSON value other than [null] without a numeric [resumeScore], or
    whose [strengths] or [weaknesses] is not an array, the response has
    status 500, the error of an invalid structure, and the raw content as
    its details. *)
Lemma invalid_structure_reported request c v :
  upstream_content w request c ->
  JSON_parse c = Some v ->
  v <> JNull ->
  typeof_number (member v "resumeScore") = false
  \/ Array_isArray (member v "strengths") = false
  \/ Array_isArray (member v "weaknesses") = false ->
  snd (run (POST w request))
  = Ok {| status := 500;
          body := APIError invalid_structure_message (Some c) |}.
Proof.
  intros Hup Hparse Hv Hshape.
  destruct (POST_reply request c Hup) as [log ->].
  assert (Hc : c <> []).
  { intros ->. rewrite JSON_parse_empty in Hparse. discriminate. }
  rewrite (not_empty_eqb c Hc).
  unfold try_catch, validate, bind. rewrite Hparse.
  rewrite (get_member v "resumeScore" _ Hv). cbn.
  destruct (typeof_number (member v "resumeScore")); [|reflexivity]. cbn.
  rewrite (get_member v "strengths" _ Hv). cbn.
  destruct (Array_isArray (member v "strengths")); [|reflexivity]. cbn.
  rewrite (get_member v "weaknesses" _ Hv). cbn.
  destruct (Array_isArray (member v "weaknesses")); [|reflexivity].
  destruct Hshape as [H|[H|H]]; discriminate.
Qed.

(** X15: a reply whose content parses as [null] does not reach the
    report of an invalid structure: reading its [resumeScore] throws, and
    the catch clause answers with status 500, the general error and, as
    details, the message of that [TypeError] instead of the raw content. *)
Lemma null_reply_caught request c :
  upstream_content w request c ->
  JSON_parse c = Some JNull ->
  snd (run (POST w request))
  = Ok {| status := 500;
          body := APIError failure_message
                    (Some (TypeError_read_of_null (str "resumeScore"))) |}.
Proof.
  intros Hup Hparse.
  destruct (POST_reply request c Hup) as [log ->].
  assert (Hc : c <> []).
  { intros ->. rewrite JSON_parse_empty in Hparse. discriminate. }
  rewrite (not_empty_eqb c Hc).
  unfold try_catch, validate. rewrite Hparse. reflexivity.
Qed.

(** C4, amended: when the completion endpoint answers with content
    that is not empty and does not parse as JSON, the response has
    status 500 and its [details] are that content. *)
Theorem unparseable_reply_reported request c :
  upstream_content w request c ->
  c <> [] ->
  JSON_parse c = None ->
  snd (run (POST w request))
  = Ok {| status := 500;
          body := APIError parse_failure_message (Some c) |}.
Proof.
  intros Hup Hc Hparse.
  destruct (POST_reply request c Hup) as [log ->].
  rewrite (not_empty_eqb c Hc).
  unfold try_catch, validate. rewrite Hparse. reflexivity.
Qed.

(** C1, amended: for a request whose resume text is empty or white
    space only, the handler calls no completion endpoint; and when the
    construction of the client has not thrown, it answers with status
    400 and an error payload, having done nothing but construct the
    client and read the body. *)
Theorem blank_resume_rejected request body s :
  json_body request = Ok body ->
  member body "resumeText" = Some (JString s) ->
  forallb is_ws s = true ->
  ~ outbound_call (fst (run (POST w request)))
  /\ (new_OpenAI w (OPENAI_API_KEY w) = Ok tt ->
      run (POST w request)
      = ([ev_new_OpenAI (OPENAI_API_KEY w); ev_request_json],
         Ok {| status := 400; body := APIError required_message None |})).
Proof.
  intros Hbody Htext Hblank.
  pose proof (TextSpec.trim_blank s Hblank) as Htrim.
  split.
  - intros [prompt Hin]. revert prompt Hin. apply POST_log_no_call.
    intros body' s' Hbody' Htext'.
    rewrite Hbody in Hbody'. injection Hbody' as <-.
    rewrite Htext in Htext'. injection Htext' as <-.
    exact Htrim.
  - intros Hnew.
    unfold POST, run, try_catch, call, bind, emit, ret.
    rewrite Hnew, Hbody. cbn.
    rewrite (get_member body "resumeText" _ (member_not_null _ _ _ Htext)).
    rewrite Htext. cbn. destruct (js_string_eqb s []); cbn; [reflexivity|].
    rewrite Htrim. reflexivity.
Qed.

(** C10: the client is constructed, with the key read from the
    environment, before anything else: the log of every request starts
    with it.  So when the construction throws, every request, whatever
    its body, is answered by the catch clause with status 500, and its
    body is not even read. *)
Theorem client_constructed_first request :
  (exists rest,
      fst (run (POST w request))
      = ev_new_OpenAI (OPENAI_API_KEY w) :: rest)
  /\ forall e,
      new_OpenAI w (OPENAI_API_KEY w) = Throw e ->
      run (POST w request)
      = ([ev_new_OpenAI (OPENAI_API_KEY w);
          ev_console_error (str "Error analyzing resume:") e],
         Ok {| status := 500;
               body := APIError failure_message (Some (error_details e)) |}).
Proof.
  split.
  - destruct (POST_log request)
      as [(_ & body & s & prompt & tail & _ & _ & _ & _ & Hlog & _)
         | (rest & Hlog & _)];
      rewrite Hlog; eexists; reflexivity.
  - intros e Hnew. unfold POST, run, try_catch, call, bind, emit, throw.
    rewrite Hnew. reflexivity.
Qed.

(** *** Properties read off the two tables *)

Lemma no_outbound_filter log :
  (forall p, ~ In (ev_chat_completions_create p) log) ->
  filter Outcome.is_outbound_call log = [].
Proof.
  induction log as [|ev log IH]; intros H; [reflexivity|].
  simpl. destruct ev; simpl;
    try (apply IH; intros p Hin; apply (H p); right; exact Hin).
  exfalso. apply (H prompt). left. reflexivity.
Qed.

(** X8: the handler calls [chat.completions.create] at most once for a
    request (it has no second call after a failure; the requests that the
    client of the openai package sends within one call, its own retries
    included, are not calls of the handler), and only after the client has
    been constructed and the body read with a [resumeText] that is a
    string with a code unit other than white space; the prompt of the call
    is the one that [buildPrompt] has returned for that text and the
    [jobDescription] of the body. *)
Theorem one_call_after_validation request :
  length (filter Outcome.is_outbound_call (fst (run (POST w request)))) <= 1
  /\ forall prompt,
      In (ev_chat_completions_create prompt) (fst (run (POST w request))) ->
      new_OpenAI w (OPENAI_API_KEY w) = Ok tt
      /\ exists body s,
          json_body request = Ok body
          /\ member body "resumeText" = Some (JString s)
          /\ trim s <> []
          /\ buildPrompt s (member body "jobDescription") = Ok prompt.
Proof.
  destruct (POST_log request)
    as [(Hnew & body & s & prompt' & tail & Hbody & Htext & Htrim & Hprompt
         & Hlog & Htail)
       | (rest & Hlog & Hnone)]; rewrite Hlog; split.
  - cbn. rewrite (no_outbound_filter tail Htail). simpl. lia.
  - intros prompt Hin. split; [exact Hnew|]. exists body, s.
    repeat split; try assumption.
    cbn in Hin. destruct Hin as [Hin|[Hin|[Hin|Hin]]]; try discriminate.
    + injection Hin as <-. exact Hprompt.
    + exfalso. exact (Htail prompt Hin).
  - cbn. rewrite (no_outbound_filter rest Hnone). simpl. lia.
  - intros prompt [Hin|Hin]; [discriminate|]. exfalso. exact (Hnone prompt Hin).
Qed.

(** The response to a request that has passed the check of its resume
    text: the analysis, or an error with status 500. *)
Lemma analyze_response parsed s log :
  parsed <> JNull ->
  exists log' response,
    try_catch (analyze w parsed s) on_error log = (log', Ok response)
    /\ ((exists prompt completion c v,
            buildPrompt s (member parsed "jobDescription") = Ok prompt
            /\ chat_completions_create w prompt = Ok completion
            /\ responseContent completion = Some c
            /\ JSON_parse c = Some v
            /\ Outcome.shape_ok v = true
            /\ response = {| status := 200; body := Analysis (stringified v) |}
            /\ log' = log ++ [ev_chat_completions_create prompt])
        \/ (status response = 500%N
            /\ exists error details, body response = APIError error details)).
Proof.
  intros Hbody.
  destruct (buildPrompt s (member parsed "jobDescription")) as [prompt|e]
    eqn:Hprompt.
  2: { rewrite (analyze_no_prompt parsed s e log Hbody Hprompt).
       do 2 eexists. split; [reflexivity|].
       right. split; [reflexivity | do 2 eexists; reflexivity]. }
  destruct (analyze_cases parsed s prompt log Hbody Hprompt)
    as [(e & _ & H)
       | (completion & Hchat
          & [(_ & H)
            | (c & Hc & _
               & [(_ & H) | [(_ & H) | (v & Hparse & Hv & H)]])])];
    rewrite H; do 2 eexists; (split; [reflexivity|]);
    try (right; split; [reflexivity | do 2 eexists; reflexivity]).
  destruct (Outcome.shape_ok v) eqn:Hshape.
  - left. exists prompt, completion, c, v. repeat split; assumption.
  - right. split; [reflexivity | do 2 eexists; reflexivity].
Qed.

Lemma blank_valid_string body s :
  member body "resumeText" = Some (JString s) ->
  trim s <> [] ->
  Outcome.blank_resumeText (member body "resumeText") = false.
Proof.
  intros -> Htrim. unfold Outcome.blank_resumeText.
  apply trim_length in Htrim. rewrite Htrim.
  destruct s; [|reflexivity]. discriminate.
Qed.

Lemma blank_not_string v :
  truthy v = true -> (forall s, v <> Some (JString s)) ->
  Outcome.blank_resumeText v = false.
Proof.
  intros Ht Hs. unfold Outcome.blank_resumeText. rewrite Ht.
  destruct v as [[| | |s| |]|]; try reflexivity.
  exfalso. exact (Hs s eq_refl).
Qed.

(** X9: the analysis route answers with status 400 exactly when the
    client has been constructed, the body has been read and is not [null],
    and its [resumeText] is missing, falsy ([null], [false], [0], the empty
    string) or a string of white space; the response is then the error
    [Resume text is required], and nothing is done after the reading of
    the body. *)
Theorem required_iff request :
  let rejected :=
    new_OpenAI w (OPENAI_API_KEY w) = Ok tt
    /\ exists body,
        json_body request = Ok body /\ body <> JNull
        /\ Outcome.blank_resumeText (member body "resumeText") = true in
  exists response,
    snd (run (POST w request)) = Ok response
    /\ (status response = 400%N <-> rejected)
    /\ (rejected ->
        run (POST w request)
        = ([ev_new_OpenAI (OPENAI_API_KEY w); ev_request_json],
           Ok Outcome.required)).
Proof.
  cbv zeta.
  destruct (POST_cases request)
    as [(e & Hnew & H)
       | (Hnew & [(e & Hbody & H)
                 | [(Hbody & H)
                   | (body & Hbody & Hnn
                      & [(Hblank & H)
                        | [(Htruthy & Hns & H) | (s & Htext & Htrim & H)]])]])].
  - rewrite H. eexists. split; [reflexivity|].
    split; [split; [discriminate|]|]; intros [Hnew' _]; congruence.
  - rewrite H. eexists. split; [reflexivity|].
    split; [split; [discriminate|]|]; intros (_ & b & Hb & _); congruence.
  - rewrite H. eexists. split; [reflexivity|].
    split; [split; [discriminate|]|]; intros (_ & b & Hb & Hb' & _); congruence.
  - rewrite H. eexists. split; [reflexivity|].
    split; [split; [intros _; split; [exact Hnew|]; exists body; auto
                   | reflexivity]|].
    reflexivity.
  - pose proof (blank_not_string _ Htruthy Hns) as Hnb.
    rewrite H. eexists. split; [reflexivity|].
    split; [split; [discriminate|]|]; intros (_ & b & Hb & _ & Hb');
      assert (b = body) by congruence; subst b; congruence.
  - pose proof (blank_valid_string body s Htext Htrim) as Hnb.
    destruct (analyze_response body s
                ([ev_new_OpenAI (OPENAI_API_KEY w)] ++ [ev_request_json]) Hnn)
      as (log' & response & Hrun & Hresp).
    rewrite H, Hrun. exists response. split; [reflexivity|].
    assert (Hno : ~ (new_OpenAI w (OPENAI_API_KEY w) = Ok tt
                     /\ exists b, json_body request = Ok b /\ b <> JNull
                        /\ Outcome.blank_resumeText (member b "resumeText") = true)).
    { intros (_ & b & Hb & _ & Hb').
      assert (b = body) by congruence. subst b. congruence. }
    split; [split|].
    + intros Hst. exfalso.
      destruct Hresp as [(? & ? & ? & ? & _ & _ & _ & _ & _ & -> & _) | [Hst' _]];
        [discriminate|]. rewrite Hst in Hst'. discriminate.
    + intros Hr. exfalso. exact (Hno Hr).
    + intros Hr. exfalso. exact (Hno Hr).
Qed.

(** X10: a [resumeText] that is truthy but not a string (a number other
    than zero, [true], an array, an object) is not answered with status
    400: calling [trim] on it throws, and the catch clause answers with
    status 500 and the message of that [TypeError]; the completion endpoint
    is not called. *)
Theorem non_string_resume_fails request body :
  new_OpenAI w (OPENAI_API_KEY w) = Ok tt ->
  json_body request = Ok body ->
  truthy (member body "resumeText") = true ->
  (forall s, member body "resumeText" <> Some (JString s)) ->
  let no_trim :=
    ErrorObject (TypeError_not_a_function (str "body.resumeText.trim")) in
  run (POST w request)
  = ([ev_new_OpenAI (OPENAI_API_KEY w); ev_request_json;
      ev_console_error (str "Error analyzing resume:") no_trim],
     Ok (Outcome.analyze_failure no_trim)).
Proof.
  intros Hnew Hbody Htruthy Hns. cbv zeta.
  pose proof (blank_not_string _ Htruthy Hns) as Hnb.
  destruct (POST_cases request)
    as [(e & Hnew' & H)
       | (_ & [(e & Hbody' & H)
              | [(Hbody' & H)
                | (b & Hbody' & Hnn
                   & [(Hblank & H)
                     | [(_ & _ & H) | (s & Htext & _ & H)]])]])];
    try congruence.
  - assert (body = JNull) by congruence. subst body. discriminate.
  - exact H.
Qed.

(** X11: when the client has been constructed, a body that cannot be read
    as JSON and a body that is [null] are both answered by the catch
    clause with status 500 (and the message of what was thrown), never with
    the validation error, and without any call of the completion endpoint. *)
Theorem unreadable_body_fails request :
  new_OpenAI w (OPENAI_API_KEY w) = Ok tt ->
  (forall e,
      json_body request = Throw e ->
      run (POST w request)
      = ([ev_new_OpenAI (OPENAI_API_KEY w); ev_request_json;
          ev_console_error (str "Error analyzing resume:") e],
         Ok (Outcome.analyze_failure e)))
  /\ (json_body request = Ok JNull ->
      run (POST w request)
      = ([ev_new_OpenAI (OPENAI_API_KEY w); ev_request_json;
          ev_console_error (str "Error analyzing resume:")
            (ErrorObject (TypeError_read_of_null (str "resumeText")))],
         Ok (Outcome.analyze_failure
               (ErrorObject (TypeError_read_of_null (str "resumeText")))))).
Proof.
  intros Hnew.
  destruct (POST_cases request)
    as [(e & Hnew' & H)
       | (_ & [(e & Hbody' & H)
              | [(Hbody' & H) | (b & Hbody' & Hnn & _)]])];
    try congruence; split; try congruence.
  - intros e' He. assert (e' = e) by congruence. subst e'. exact H.
  - intros _. exact H.
Qed.

(** X12: when the prompt has been built and the call of
    [chat.completions.create] throws (a failure of transport or of
    authentication that the client has given up on), the request is
    answered with status 500 and the message of what was thrown; the
    handler does not make the call a second time. *)
Theorem upstream_failure_reported request body s prompt e :
  new_OpenAI w (OPENAI_API_KEY w) = Ok tt ->
  json_body request = Ok body ->
  member body "resumeText" = Some (JString s) ->
  trim s <> [] ->
  buildPrompt s (member body "jobDescription") = Ok prompt ->
  chat_completions_create w prompt = Throw e ->
  run (POST w request)
  = ([ev_new_OpenAI (OPENAI_API_KEY w); ev_request_json;
      ev_chat_completions_create prompt;
      ev_console_error (str "Error analyzing resume:") e],
     Ok (Outcome.analyze_failure e)).
Proof.
  intros Hnew Hbody Htext Htrim Hprompt Hchat.
  rewrite (POST_valid request body s Hnew Hbody Htext Htrim).
  destruct (analyze_cases body s prompt
              [ev_new_OpenAI (OPENAI_API_KEY w); ev_request_json]
              (member_not_null _ _ _ Htext) Hprompt)
    as [(e' & Hchat' & H) | (completion & Hchat' & _)]; [|congruence].
  assert (e' = e) by congruence. subst e'. exact H.
Qed.

(** X13: when the prompt has been built and the completion returned for
    it has no choice, or its first choice has no message, or the message
    has no content or an empty one, the request is answered with status
    500 and the error [No response from OpenAI], without details. *)
Theorem empty_reply_reported request body s prompt completion :
  new_OpenAI w (OPENAI_API_KEY w) = Ok tt ->
  json_body request = Ok body ->
  member body "resumeText" = Some (JString s) ->
  trim s <> [] ->
  buildPrompt s (member body "jobDescription") = Ok prompt ->
  chat_completions_create w prompt = Ok completion ->
  choices completion = []
  \/ (exists rest, choices completion = {| message := None |} :: rest)
  \/ (exists rest,
         choices completion
         = {| message := Some {| content := None |} |} :: rest)
  \/ (exists rest,
         choices completion
         = {| message := Some {| content := Some [] |} |} :: rest) ->
  run (POST w request)
  = ([ev_new_OpenAI (OPENAI_API_KEY w); ev_request_json;
      ev_chat_completions_create prompt],
     Ok Outcome.no_response).
Proof.
  intros Hnew Hbody Htext Htrim Hprompt Hchat Hempty.
  assert (Hno : Outcome.no_content (responseContent completion) = true).
  { unfold responseContent.
    destruct Hempty as [-> | [[rest ->] | [[rest ->] | [rest ->]]]];
      reflexivity. }
  rewrite (POST_valid request body s Hnew Hbody Htext Htrim).
  destruct (analyze_cases body s prompt
              [ev_new_OpenAI (OPENAI_API_KEY w); ev_request_json]
              (member_not_null _ _ _ Htext) Hprompt)
    as [(e' & Hchat' & H) | (completion' & Hchat' & Hcase)]; [congruence|].
  assert (completion' = completion) by congruence. subst completion'.
  destruct Hcase as [(_ & H) | (c & Hc & Hne & _)]; [exact H|].
  exfalso. rewrite Hc in Hno. simpl in Hno.
  apply Hne. destruct c; [reflexivity | discriminate].
Qed.

(** What a client reads in the three members of a written analysis. *)
Lemma stringified_shape v :
  Outcome.shape_ok v = true ->
  (typeof_number (member (stringified v) "resumeScore") = true
   \/ member (stringified v) "resumeScore" = Some JNull)
  /\ Array_isArray (member (stringified v) "strengths") = true
  /\ Array_isArray (member (stringified v) "weaknesses") = true.
Proof.
  unfold Outcome.shape_ok. intros H.
  apply andb_prop in H. destruct H as [H Hwk].
  apply andb_prop in H. destruct H as [Hscore Hst].
  rewrite !JsonSpec.member_stringified.
  destruct (member v "resumeScore") as [[| | n | | |]|]; try discriminate.
  destruct (member v "strengths") as [[| | | | items |]|]; try discriminate.
  destruct (member v "weaknesses") as [[| | | | items' |]|]; try discriminate.
  split; [|split; reflexivity].
  destruct n as [[|]|[|]| |sign m e]; simpl; auto.
Qed.

(** X16: every request is answered, with the analysis or with an error,
    never with both: either status 200 and a body that is, as
    [JSON.stringify] writes it, the value parsed from the content returned
    for this request, which has a numeric [resumeScore] and arrays for
    [strengths] and [weaknesses] (in the body the two are arrays, and the
    score is a number, or [null] for a score that is not finite); or status
    400 or 500 and a body that is an error. *)
Theorem analysis_or_error request :
  exists response,
    snd (run (POST w request)) = Ok response
    /\ ((status response = 200%N
         /\ exists c v,
             upstream_content w request c
             /\ JSON_parse c = Some v
             /\ Outcome.shape_ok v = true
             /\ body response = Analysis (stringified v)
             /\ (typeof_number (member (stringified v) "resumeScore") = true
                 \/ member (stringified v) "resumeScore" = Some JNull)
             /\ Array_isArray (member (stringified v) "strengths") = true
             /\ Array_isArray (member (stringified v) "weaknesses") = true)
        \/ ((status response = 400%N \/ status response = 500%N)
            /\ exists error details, body response = APIError error details)).
Proof.
  destruct (POST_cases request)
    as [(e & Hnew & H)
       | (Hnew & [(e & Hbody & H)
                 | [(Hbody & H)
                   | (body & Hbody & Hnn
                      & [(Hblank & H)
                        | [(Htruthy & Hns & H) | (s & Htext & Htrim & H)]])]])];
    try (rewrite H; eexists; split; [reflexivity|]; right;
         split; [auto | do 2 eexists; reflexivity]).
  destruct (analyze_response body s
              ([ev_new_OpenAI (OPENAI_API_KEY w)] ++ [ev_request_json]) Hnn)
    as (log' & response & Hrun & Hresp).
  exists response. split; [rewrite H, Hrun; reflexivity|].
  destruct Hresp
    as [(prompt & completion & c & v & Hprompt & Hchat & Hc & Hparse & Hshape
         & -> & ->)
       | [Hst Herr]].
  - left. split; [reflexivity|]. exists c, v.
    split; [|split; [exact Hparse|split; [exact Hshape|split; [reflexivity|]]]].
    + exists prompt, completion. repeat split; try assumption.
      rewrite H, Hrun. cbn. right. right. left. reflexivity.
    + exact (stringified_shape v Hshape).
  - right. split; [right; exact Hst | exact Herr].
Qed.

Lemma valid_text_called request parsed t prompt :
  new_OpenAI w (OPENAI_API_KEY w) = Ok tt ->
  json_body request = Ok parsed ->
  member parsed "resumeText" = Some (JString t) ->
  trim t <> [] ->
  buildPrompt t (member parsed "jobDescription") = Ok prompt ->
  In (ev_chat_completions_create prompt) (fst (run (POST w request))).
Proof.
  intros Hnew Hbody Htext Htrim Hprompt.
  rewrite (POST_valid request parsed t Hnew Hbody Htext Htrim).
  destruct (analyze_log parsed t
              [ev_new_OpenAI (OPENAI_API_KEY w); ev_request_json]
              (member_not_null _ _ _ Htext))
    as [(prompt' & tail & Hprompt' & Hlog & _) | (e & Hprompt' & _)];
    [|congruence].
  assert (prompt' = prompt) by congruence. subst prompt'.
  rewrite Hlog. right. right. left. reflexivity.
Qed.

Lemma valid_text_not_400 request parsed t response :
  json_body request = Ok parsed ->
  member parsed "resumeText" = Some (JString t) ->
  trim t <> [] ->
  snd (run (POST w request)) = Ok response ->
  status response <> 400%N.
Proof.
  intros Hbody Htext Htrim Hrun.
  pose proof (blank_valid_string parsed t Htext Htrim) as Hnb.
  destruct (POST_cases request)
    as [(e & Hnew & H)
       | (Hnew & [(e & Hbody' & H)
                 | [(Hbody' & H)
                   | (b & Hbody' & Hnn
                      & [(Hblank & H)
                        | [(Htruthy & Hns & H) | (s & Htext' & Htrim' & H)]])]])];
    rewrite H in Hrun; try (injection Hrun as <-; discriminate).
  - assert (b = parsed) by congruence. subst b. congruence.
  - destruct (analyze_response b s
                ([ev_new_OpenAI (OPENAI_API_KEY w)] ++ [ev_request_json]) Hnn)
      as (log' & r & Hr & Hresp).
    rewrite Hr in Hrun. injection Hrun as <-.
    destruct Hresp as [(? & ? & ? & ? & _ & _ & _ & _ & _ & -> & _) | [Hst _]];
      [discriminate | rewrite Hst; discriminate].
Qed.

(** X17: a job description that is an object with a property [toString]
    of its own (no JSON value is a function) cannot be put into the
    template of the prompt: for a request that has passed the check of its
    resume text, [buildPrompt] throws a [TypeError], the catch clause
    answers with status 500 and its message, and [chat.completions.create]
    is not called; while a job description that is missing, [null], a
    boolean, a number or a string always gives a prompt. *)
Theorem unprintable_job_description_fails request body s members printer :
  new_OpenAI w (OPENAI_API_KEY w) = Ok tt ->
  json_body request = Ok body ->
  member body "resumeText" = Some (JString s) ->
  trim s <> [] ->
  member body "jobDescription" = Some (JObject members) ->
  assoc (str "toString") members = Some printer ->
  run (POST w request)
  = ([ev_new_OpenAI (OPENAI_API_KEY w); ev_request_json;
      ev_console_error (str "Error analyzing resume:")
        (ErrorObject TypeError_to_primitive)],
     Ok (Outcome.analyze_failure (ErrorObject TypeError_to_primitive)))
  /\ forall text job,
      match job with
      | Some (JArray _) | Some (JObject _) => False
      | _ => True
      end ->
      exists prompt, buildPrompt text job = Ok prompt.
Proof.
  intros Hnew Hbody Htext Htrim Hjob Hprinter. split.
  - rewrite (POST_valid request body s Hnew Hbody Htext Htrim).
    apply (analyze_no_prompt body s (ErrorObject TypeError_to_primitive)
             [ev_new_OpenAI (OPENAI_API_KEY w); ev_request_json]
             (member_not_null _ _ _ Htext)).
    unfold buildPrompt. rewrite Hjob. simpl. rewrite Hprinter. reflexivity.
  - intros text job Hjob'. unfold buildPrompt.
    destruct job as [[| [|] | n | t | items | members']|];
      try contradiction; try (eexists; reflexivity).
    + destruct (truthy (Some (JNumber n))); eexists; reflexivity.
    + destruct (truthy (Some (JString t))); eexists; reflexivity.
Qed.

End Route.

(** The call made for the sample request has returned [c]: it is the
    third event of the log. *)
Ltac sample_reply c :=
  eexists; exists (Sample.completion (Some c));
  split; [right; right; left; reflexivity | split; reflexivity].

Lemma parsed_reply_forwarded_witness :
  snd (run (POST (rt := Sample.runtime)
              (Sample.replying (Some Sample.reply_out_of_range))
              (Sample.analyze_request Sample.resume)))
  = Ok {| status := 200; body := Analysis Sample.analysis_out_of_range |}.
Proof.
  refine (proj1 (parsed_reply_forwarded (rt := Sample.runtime)
                   (Sample.replying (Some Sample.reply_out_of_range))
                   (Sample.analyze_request Sample.resume)
                   (JObject [(str "resumeText", JString Sample.resume)])
                   Sample.resume
                   Sample.reply_out_of_range Sample.analysis_out_of_range
                   (S754_finite false 8796093022208000 (-45))
                   [JString (str "Clear")] [] _ _ _ _ _ _ _ _)).
  - reflexivity.
  - reflexivity.
  - discriminate.
  - sample_reply Sample.reply_out_of_range.
  - reflexivity.
  - reflexivity.
  - reflexivity.
  - reflexivity.
Defined.

(** C2 as stated fails for a score that [JSON.parse] reads as infinite:
    the reply has a numeric [resumeScore] and two arrays, the response has
    status 200, and its [resumeScore] is [null], not the parsed number. *)
Lemma infinite_score_not_forwarded :
  upstream_content (rt := Sample.runtime)
    (Sample.replying (Some Sample.reply_overflow))
    (Sample.analyze_request Sample.resume) Sample.reply_overflow
  /\ JSON_parse (Runtime := Sample.runtime) Sample.reply_overflow
     = Some Sample.analysis_overflow
  /\ member Sample.analysis_overflow "resumeScore"
     = Some (JNumber (S754_infinity false))
  /\ member Sample.analysis_overflow "strengths" = Some (JArray [])
  /\ member Sample.analysis_overflow "weaknesses" = Some (JArray [])
  /\ snd (run (POST (rt := Sample.runtime)
                 (Sample.replying (Some Sample.reply_overflow))
                 (Sample.analyze_request Sample.resume)))
     = Ok {| status := 200;
             body := Analysis
                       (JObject [ (str "resumeScore", JNull);
                                  (str "strengths", JArray []);
                                  (str "weaknesses", JArray []) ]) |}
  /\ JObject [ (str "resumeScore", JNull);
               (str "strengths", JArray []);
               (str "weaknesses", JArray []) ]
     <> Sample.analysis_overflow.
Proof.
  split; [sample_reply Sample.reply_overflow|].
  repeat split; try reflexivity. discriminate.
Qed.

(** C3: a reply of [null] parses as JSON and has no numeric
    [resumeScore], but the response does not carry the raw content: the
    check of the structure reads a property of [null], which throws, and
    the catch clause answers with the message of the [TypeError]. *)
Theorem null_reply_not_reported :
  upstream_content (rt := Sample.runtime) (Sample.replying (Some (str "null")))
    (Sample.analyze_request Sample.resume) (str "null")
  /\ JSON_parse (Runtime := Sample.runtime) (str "null") = Some JNull
  /\ snd (run (POST (rt := Sample.runtime)
                 (Sample.replying (Some (str "null")))
                 (Sample.analyze_request Sample.resume)))
     = Ok {| status := 500;
             body := APIError failure_message
                       (Some (str "Cannot read properties of null (reading 'resumeScore')")) |}.
Proof.
  split; [sample_reply (str "null")|].
  split; reflexivity.
Qed.

(** C4 as stated fails for a reply whose content is the empty string:
    it is not a JSON text, and the response has no [details] at all. *)
Lemma empty_reply_without_details :
  upstream_content (rt := Sample.runtime) (Sample.replying (Some []))
    (Sample.analyze_request Sample.resume) []
  /\ JSON_parse (Runtime := Sample.runtime) [] = None
  /\ snd (run (POST (rt := Sample.runtime) (Sample.replying (Some []))
                 (Sample.analyze_request Sample.resume)))
     = Ok {| status := 500; body := APIError no_response_message None |}.
Proof.
  split; [sample_reply (@nil code_unit)|].
  split; reflexivity.
Qed.

Lemma unparseable_reply_reported_witness :
  snd (run (POST (rt := Sample.runtime)
              (Sample.replying (Some (str "not json")))
              (Sample.analyze_request Sample.resume)))
  = Ok {| status := 500;
          body := APIError parse_failure_message (Some (str "not json")) |}.
Proof.
  apply (unparseable_reply_reported (rt := Sample.runtime)
           (Sample.replying (Some (str "not json")))
           (Sample.analyze_request Sample.resume) (str "not json")).
  - sample_reply (str "not json").
  - discriminate.
  - reflexivity.
Defined.

(** C1 as stated fails when the client cannot be constructed: without a
    key, a request with an empty resume text gets status 500. *)
Lemma blank_resume_without_key :
  member (JObject [(str "resumeText", JString [])]) "resumeText"
  = Some (JString [])
  /\ run (POST (rt := Sample.runtime) Sample.no_parser (Sample.analyze_request []))
     = ([ev_new_OpenAI None;
         ev_console_error (str "Error analyzing resume:") Sample.missing_key],
        Ok {| status := 500;
              body := APIError failure_message
                        (Some (str "The OPENAI_API_KEY environment variable is missing or empty")) |}).
Proof. split; reflexivity. Qed.

Lemma blank_resume_rejected_witness :
  ~ outbound_call
      (fst (run (POST (rt := Sample.runtime) (Sample.replying None)
                   (Sample.analyze_request [SP; LF; 9%N]))))
  /\ run (POST (rt := Sample.runtime) (Sample.replying None)
            (Sample.analyze_request [SP; LF; 9%N]))
     = ([ev_new_OpenAI (Some (str "sk-test")); ev_request_json],
        Ok {| status := 400; body := APIError required_message None |}).
Proof.
  destruct (blank_resume_rejected (rt := Sample.runtime) (Sample.replying None)
              (Sample.analyze_request [SP; LF; 9%N])
              (JObject [(str "resumeText", JString [SP; LF; 9%N])])
              [SP; LF; 9%N] eq_refl eq_refl eq_refl) as [Hno Hrun].
  split; [exact Hno | exact (Hrun eq_refl)].
Defined.

Lemma client_constructed_first_witness :
  run (POST (rt := Sample.runtime) Sample.no_parser (Sample.analyze_request []))
  = ([ev_new_OpenAI None;
      ev_console_error (str "Error analyzing resume:") Sample.missing_key],
     Ok {| status := 500;
           body := APIError failure_message
                     (Some (error_details Sample.missing_key)) |}).
Proof.
  exact (proj2 (client_constructed_first (rt := Sample.runtime)
                  Sample.no_parser (Sample.analyze_request []))
               Sample.missing_key eq_refl).
Defined.

Lemma non_string_resume_fails_witness :
  snd (run (POST (rt := Sample.runtime) (Sample.replying None)
              (Sample.request_with
                 (JObject [(str "resumeText", JArray [JString Sample.resume])]))))
  = Ok {| status := 500;
          body := APIError failure_message
                    (Some (str "body.resumeText.trim is not a function")) |}.
Proof.
  assert (Hns : forall s,
             member (JObject [(str "resumeText", JArray [JString Sample.resume])])
               "resumeText" <> Some (JString s)) by discriminate.
  rewrite (non_string_resume_fails (rt := Sample.runtime) (Sample.replying None)
             (Sample.request_with
                (JObject [(str "resumeText", JArray [JString Sample.resume])]))
             (JObject [(str "resumeText", JArray [JString Sample.resume])])
             eq_refl eq_refl eq_refl Hns).
  reflexivity.
Defined.

Lemma unreadable_body_fails_witness :
  run (POST (rt := Sample.runtime) (Sample.replying None) (Sample.upload "cv.pdf"))
  = ([ev_new_OpenAI (Some (str "sk-test")); ev_request_json;
      ev_console_error (str "Error analyzing resume:") NotAnError],
     Ok {| status := 500;
           body := APIError failure_message (Some (str "Unknown error")) |})
  /\ run (POST (rt := Sample.runtime) (Sample.replying None)
            (Sample.request_with JNull))
     = ([ev_new_OpenAI (Some (str "sk-test")); ev_request_json;
         ev_console_error (str "Error analyzing resume:")
           (ErrorObject
              (str "Cannot read properties of null (reading 'resumeText')"))],
        Ok {| status := 500;
              body := APIError failure_message
                        (Some (str "Cannot read properties of null (reading 'resumeText')")) |}).
Proof.
  split.
  - exact (proj1 (unreadable_body_fails (rt := Sample.runtime)
                    (Sample.replying None) (Sample.upload "cv.pdf") eq_refl)
                 NotAnError eq_refl).
  - exact (proj2 (unreadable_body_fails (rt := Sample.runtime)
                    (Sample.replying None) (Sample.request_with JNull) eq_refl)
                 eq_refl).
Defined.

Lemma upstream_failure_reported_witness :
  snd (run (POST (rt := Sample.runtime) Sample.unreachable
              (Sample.analyze_request Sample.resume)))
  = Ok {| status := 500;
          body := APIError failure_message (Some (str "Connection error.")) |}.
Proof.
  assert (Htrim : trim Sample.resume <> []) by discriminate.
  rewrite (upstream_failure_reported (rt := Sample.runtime) Sample.unreachable
             (Sample.analyze_request Sample.resume)
             (JObject [(str "resumeText", JString Sample.resume)])
             Sample.resume _ (ErrorObject (str "Connection error."))
             eq_refl eq_refl eq_refl Htrim eq_refl eq_refl).
  reflexivity.
Defined.

Lemma empty_reply_reported_witness :
  snd (run (POST (rt := Sample.runtime) (Sample.replying None)
              (Sample.analyze_request Sample.resume)))
  = Ok {| status := 500; body := APIError no_response_message None |}.
Proof.
  refine (f_equal snd
            (empty_reply_reported (rt := Sample.runtime) (Sample.replying None)
               (Sample.analyze_request Sample.resume)
               (JObject [(str "resumeText", JString Sample.resume)])
               Sample.resume _ (Sample.completion None)
               eq_refl eq_refl eq_refl _ eq_refl eq_refl _)).
  - discriminate.
  - right. right. left. exists []. reflexivity.
Defined.

Lemma unprintable_job_description_fails_witness :
  snd (run (POST (rt := Sample.runtime)
              (Sample.replying (Some Sample.reply_out_of_range))
              (Sample.request_with
                 (JObject [ (str "resumeText", JString Sample.resume);
                            (str "jobDescription",
                             JObject [(str "toString", JNumber (S754_zero false))]) ]))))
  = Ok {| status := 500;
          body := APIError failure_message
                    (Some (str "Cannot convert object to primitive value")) |}.
Proof.
  assert (Htrim : trim Sample.resume <> []) by discriminate.
  rewrite (proj1 (unprintable_job_description_fails (rt := Sample.runtime)
                    (Sample.replying (Some Sample.reply_out_of_range))
                    (Sample.request_with
                       (JObject [ (str "resumeText", JString Sample.resume);
                                  (str "jobDescription",
                                   JObject [(str "toString",
                                             JNumber (S754_zero false))]) ]))
                    (JObject [ (str "resumeText", JString Sample.resume);
                               (str "jobDescription",
                                JObject [(str "toString",
                                          JNumber (S754_zero false))]) ])
                    Sample.resume
                    [(str "toString", JNumber (S754_zero false))]
                    (JNumber (S754_zero false))
                    eq_refl eq_refl eq_refl Htrim eq_refl eq_refl)).
  reflexivity.
Defined.

Lemma invalid_structure_reported_witness :
  snd (run (POST (rt := Sample.runtime)
              (Sample.replying (Some Sample.reply_no_score))
              (Sample.analyze_request Sample.resume)))
  = Ok {| status := 500;
          body := APIError invalid_structure_message
                    (Some Sample.reply_no_score) |}.
Proof.
  apply (invalid_structure_reported (rt := Sample.runtime)
           (Sample.replying (Some Sample.reply_no_score))
           (Sample.analyze_request Sample.resume)
           Sample.reply_no_score Sample.analysis_no_score).
  - sample_reply Sample.reply_no_score.
  - reflexivity.
  - discriminate.
  - left. reflexivity.
Defined.

Lemma null_reply_caught_witness :
  snd (run (POST (rt := Sample.runtime) (Sample.replying (Some (str "null")))
              (Sample.analyze_request Sample.resume)))
  = Ok {| status := 500;
          body := APIError failure_message
                    (Some (str "Cannot read properties of null (reading 'resumeScore')")) |}.
Proof.
  apply (null_reply_caught (rt := Sample.runtime)
           (Sample.replying (Some (str "null")))
           (Sample.analyze_request Sample.resume) (str "null")).
  - sample_reply (str "null").
  - reflexivity.
Defined.

End AnalyzeSpec.

(** ** From the extract route to the analysis route *)
Module FlowSpec.

(** X18: a text that the extract route has returned always passes the
    check of the resume text of the analysis route: a request whose
    [resumeText] is that text is never answered with status 400, and once
    the client is constructed, [chat.completions.create] is called with
    the prompt that [buildPrompt] returns for it, whenever it returns one. *)
Theorem extracted_text_passes_check {rt : Runtime} (w : World)
    upload log st t request parsed :
  run (Extract.POST w upload)
  = (log, Ok {| status := st; body := ExtractedText t |}) ->
  json_body request = Ok parsed ->
  member parsed "resumeText" = Some (JString t) ->
  (forall response,
      snd (run (Analyze.POST w request)) = Ok response ->
      status response <> 400%N)
  /\ (new_OpenAI w (OPENAI_API_KEY w) = Ok tt ->
      forall prompt,
        Analyze.buildPrompt t (member parsed "jobDescription") = Ok prompt ->
        In (ev_chat_completions_create prompt)
           (fst (run (Analyze.POST w request)))).
Proof.
  intros Hextract Hbody Htext.
  assert (Htrim : trim t <> []).
  { destruct (ExtractSpec.extract_cases w upload)
      as [(e & _ & H) | [(_ & H) | [(c & value & _ & H)
          | (f & Hf & [(Hpdf & [(e & _ & H) | (text & Ht & H)])
           | [(Hpdf & Hdocx & [(e & _ & H) | (x & Hx & H)]) | (_ & _ & H)]])]]];
      rewrite H in Hextract; try discriminate.
    - destruct (ExtractSpec.respond_cases (Extract.joined text))
        as [[_ E] | [Hne E]]; rewrite E in Hextract; [discriminate|].
      injection Hextract as _ _ <-. rewrite TextSpec.trim_cleanup. exact Hne.
    - destruct (ExtractSpec.respond_cases x)
        as [[_ E] | [Hne E]]; rewrite E in Hextract; [discriminate|].
      injection Hextract as _ _ <-. rewrite TextSpec.trim_cleanup. exact Hne. }
  split.
  - intros response Hrun.
    exact (AnalyzeSpec.valid_text_not_400 w request parsed t response
             Hbody Htext Htrim Hrun).
  - intros Hnew prompt Hprompt.
    exact (AnalyzeSpec.valid_text_called w request parsed t prompt
             Hnew Hbody Htext Htrim Hprompt).
Qed.

Lemma extracted_text_passes_check_witness :
  (forall response,
      snd (run (Analyze.POST (rt := Sample.runtime) Sample.full
                  (Sample.analyze_request (str "Jane Doe Engineer"))))
      = Ok response ->
      status response <> 400%N)
  /\ exists prompt,
      Analyze.buildPrompt (rt := Sample.runtime) (str "Jane Doe Engineer") None
      = Ok prompt
      /\ In (ev_chat_completions_create prompt)
            (fst (run (Analyze.POST (rt := Sample.runtime) Sample.full
                         (Sample.analyze_request (str "Jane Doe Engineer"))))).
Proof.
  destruct (extracted_text_passes_check (rt := Sample.runtime) Sample.full
              (Sample.upload "CV.pdf")
              [ev_request_formData; ev_extractText []] 200%N
              (str "Jane Doe Engineer")
              (Sample.analyze_request (str "Jane Doe Engineer"))
              (JObject [(str "resumeText", JString (str "Jane Doe Engineer"))])
              eq_refl eq_refl eq_refl) as [Hstatus Hcall].
  split; [exact Hstatus|].
  eexists. split; [reflexivity|]. exact (Hcall eq_refl _ eq_refl).
Defined.

End FlowSpec.

(** ** The home page *)
Module HomeSpec.
Import Home.

Example split_ex :
  split DOT (str "my.resume.PDF") = [str "my"; str "resume"; str "PDF"]
  /\ split DOT (str "resume") = [str "resume"]
  /\ split DOT (str "resume.") = [str "resume"; []]
  /\ split DOT [] = [[]].
Proof. repeat split. Qed.

Lemma split_not_nil sep s : split sep s <> [].
Proof.
  destruct s as [|c r]; simpl; [discriminate|].
  destruct (c =? sep)%N; [discriminate|].
  destruct (split sep r); discriminate.
Qed.

Lemma split_no_sep sep s : ~ In sep s -> split sep s = [s].
Proof.
  induction s as [|c r IH]; intros Hno; [reflexivity|]. simpl.
  destruct (N.eqb_spec c sep) as [->|_].
  - exfalso. apply Hno. left. reflexivity.
  - rewrite IH; [reflexivity|]. intros Hin. apply Hno. right. exact Hin.
Qed.

Lemma pop_cons {A} (x : A) l : l <> [] -> pop (x :: l) = pop l.
Proof. destruct l; [congruence | reflexivity]. Qed.

Lemma split_app_sep sep pre s :
  exists x y l, split sep (pre ++ sep :: s) = x :: y :: l.
Proof.
  induction pre as [|c r (x & y & l & IH)]; simpl.
  - rewrite N.eqb_refl. destruct (split sep s) as [|y l] eqn:E.
    + exfalso. exact (split_not_nil _ _ E).
    + eauto.
  - rewrite IH. destruct (c =? sep)%N; eauto.
Qed.

(** The last segment of a name is what follows its last dot. *)
Lemma pop_split_app pre segment :
  ~ In DOT segment -> pop (split DOT (pre ++ DOT :: segment)) = Some segment.
Proof.
  intros Hno. induction pre as [|c r IH].
  - simpl. rewrite (split_no_sep DOT segment Hno). reflexivity.
  - simpl. destruct (split_app_sep DOT r segment) as (x & y & l & E).
    rewrite E in IH |- *. destruct (c =? DOT)%N; exact IH.
Qed.

Section Page.
Context {rt : Runtime} (browser : Browser).


Lemma ascii_toLower_dot c : ascii_toLower c = DOT -> c = DOT.
Proof.
  unfold ascii_toLower, DOT.
  destruct ((65 <=? c)%N && (c <=? 90)%N) eqn:E; [|tauto].
  apply andb_prop in E. destruct E as [E _]. apply N.leb_le in E. lia.
Qed.

Lemma ascii_toLower_not_dot c x :
  ascii_toLower c = x -> x <> DOT -> c <> DOT.
Proof. intros H Hx ->. apply Hx. rewrite <- H. reflexivity. Qed.

(** The extension the page computes for a name that ends in a dot and
    letters in any case, when lower case on ASCII text is the ASCII one. *)
Lemma extension_any_case file ext :
  (forall t, forallb is_ascii t = true -> toLowerCase t = map ascii_toLower t) ->
  ~ In DOT ext ->
  forallb is_ascii ext = true ->
  ends_in_any_case (name (picked file)) (DOT :: ext) ->
  extension file = DOT :: ext.
Proof.
  intros Hlower Hno Hascii (pre & suf & Hname & Hsuf).
  destruct suf as [|d segment]; [discriminate|].
  simpl in Hsuf. injection Hsuf as Hd Hseg.
  apply ascii_toLower_dot in Hd. subst d.
  assert (Hseg_no : ~ In DOT segment).
  { intros Hin. apply Hno. rewrite <- Hseg.
    apply (in_map ascii_toLower) in Hin. exact Hin. }
  unfold extension. rewrite Hname, (pop_split_app pre segment Hseg_no).
  rewrite Hlower, Hseg; [reflexivity|].
  apply ExtractSpec.is_ascii_toLower. rewrite Hseg. exact Hascii.
Qed.

(** X19: the page accepts every file that the extract route gives to a
    parser by its name: a name that ends in [.pdf] or [.docx], in any
    letter case, passes [validateFile] whatever the media type of the
    file (for an engine whose lower case of ASCII text is the ASCII one). *)
Theorem routed_names_accepted file st :
  (forall t, forallb is_ascii t = true -> toLowerCase t = map ascii_toLower t) ->
  ends_in_any_case (name (picked file)) (str ".pdf")
  \/ ends_in_any_case (name (picked file)) (str ".docx") ->
  validateFile file st = (true, setError [] st).
Proof.
  intros Hlower Hname. unfold validateFile.
  assert (Hext : includes ALLOWED_EXTENSIONS (extension file) = true).
  { destruct Hname as [H|H].
    - rewrite (extension_any_case file (str "pdf") Hlower); try reflexivity;
        [|exact H].
      intros Hin. simpl in Hin. unfold DOT in Hin.
      repeat (destruct Hin as [Hin|Hin]; [discriminate|]). exact Hin.
    - rewrite (extension_any_case file (str "docx") Hlower); try reflexivity;
        [|exact H].
      intros Hin. simpl in Hin. unfold DOT in Hin.
      repeat (destruct Hin as [Hin|Hin]; [discriminate|]). exact Hin. }
  rewrite Hext. reflexivity.
Qed.

(** *** The request for the analysis *)

Lemma analyzeText_cases textToAnalyze job :
  let sent := analyze_body textToAnalyze job in
  (exists response data,
      fetch_analyze browser sent = Ok response
      /\ ok response = true
      /\ response_json response = Ok data
      /\ analyzeText browser textToAnalyze job
         = ([fetch_api_analyze sent;
             sessionStorage_setItem (str "analysisResult") data;
             router_push (str "/results")],
            Ok tt))
  \/ exists err,
      analyzeText browser textToAnalyze job = ([fetch_api_analyze sent], Throw err).
Proof.
  cbv zeta. unfold analyzeText.
  destruct (fetch_analyze browser _) as [response|e] eqn:Hfetch;
    [|right; eexists; reflexivity].
  destruct (response_json response) as [data|e] eqn:Hjson;
    [|right; eexists; reflexivity].
  destruct (ok response) eqn:Hok; [|right; eexists; reflexivity].
  left. exists response, data. repeat split; assumption.
Qed.

(** X20: with no file selected and nothing but white space in the text
    area, [handleAnalyze] sends nothing: it only shows the message that
    asks for a resume, and the page does not start loading. *)
Theorem analyze_needs_input st :
  selectedFile st = None ->
  trim (resumeText st) = [] ->
  handleAnalyze browser st
  = (setError (str "Please upload a resume file or paste the resume text") st,
     []).
Proof.
  intros Hfile Htext. unfold handleAnalyze.
  change (selectedFile (setError [] st)) with (selectedFile st).
  change (resumeText (setError [] st)) with (resumeText st).
  rewrite Hfile, Htext. reflexivity.
Qed.


Ltac no_result H :=
  let Hin := fresh "Hin" in
  exfalso; destruct H as [[? Hin] | (? & ? & Hin)]; cbn [In app] in Hin;
  repeat (destruct Hin as [Hin|Hin]; [discriminate|]); exact Hin.

(** X21: [handleAnalyze] stores a result and goes to the results page
    only when the analysis route has answered with an ok status and a body
    that reads as JSON: the last three effects are then that request, the
    storage of that body under [analysisResult] and the navigation to
    [/results], nothing but the extraction comes before, and no error is
    shown.  After any failure nothing is stored and the page stays. *)
Theorem results_only_after_success st :
  let st' := fst (handleAnalyze browser st) in
  let effects := snd (handleAnalyze browser st) in
  (exists url, In (router_push url) effects)
  \/ (exists key data, In (sessionStorage_setItem key data) effects) ->
  exists extraction sent response data,
    effects
    = extraction
      ++ [fetch_api_analyze sent;
          sessionStorage_setItem (str "analysisResult") data;
          router_push (str "/results")]
    /\ (forall eff, In eff extraction -> exists file, eff = fetch_api_extract file)
    /\ fetch_analyze browser sent = Ok response
    /\ ok response = true
    /\ response_json response = Ok data
    /\ error st' = [].
Proof.
  cbv zeta. unfold handleAnalyze.
  change (selectedFile (setError [] st)) with (selectedFile st).
  destruct (selectedFile st) as [file|].
  - assert (Hfst : fst (extractTextFromFile browser file)
                   = [fetch_api_extract file]) by reflexivity.
    destruct (extractTextFromFile browser file) as [extraction [text|err]];
      cbn [fst] in Hfst; subst extraction.
    + destruct (analyzeText_cases text
                  (jobDescription
                     (setLoadingMessage
                        (str "AI is analyzing your resume...")
                        (setLoadingMessage
                           (str "Extracting text from your resume...")
                           (setIsLoading true (setError [] st))))))
        as [(response & data & Hfetch & Hok & Hjson & E) | (err & E)];
        rewrite E; cbn [fst snd]; intros H.
      * exists [fetch_api_extract file]. do 3 eexists.
        split; [reflexivity|]. split; [|repeat split; eassumption].
        intros eff [<-|[]]. eauto.
      * no_result H.
    + cbn [fst snd]. intros H. no_result H.
  - destruct (js_string_eqb (trim (resumeText (setError [] st))) []).
    + cbn [fst snd]. intros H. no_result H.
    + destruct (analyzeText_cases
                  (Some (JString (resumeText
                     (setLoadingMessage
                        (str "AI is analyzing your resume...")
                        (setIsLoading true (setError [] st))))))
                  (jobDescription
                     (setLoadingMessage
                        (str "AI is analyzing your resume...")
                        (setIsLoading true (setError [] st)))))
        as [(response & data & Hfetch & Hok & Hjson & E) | (err & E)];
        rewrite E; cbn [fst snd]; intros H.
      * exists []. do 3 eexists.
        split; [reflexivity|]. split; [|repeat split; eassumption].
        intros eff [].
      * no_result H.
Qed.

(** *** The states of the page *)





(** *** The page in front of the two routes *)

Lemma served_extract_cases (w : World) file :
  (exists data,
      served_extract w file = Ok {| ok := false; response_json := Ok data |})
  \/ exists t,
      trim t <> []
      /\ served_extract w file
         = Ok {| ok := true;
                 response_json := Ok (JObject [(str "text", JString t)]) |}.
Proof.
  unfold served_extract.
  destruct (ExtractSpec.extract_cases w (upload_request file))
    as [(e & _ & H) | [(_ & H) | [(c & value & _ & H)
        | (f & Hf & [(Hpdf & [(e & _ & H) | (text & Ht & H)])
         | [(Hpdf & Hdocx & [(e & _ & H) | (x & Hx & H)]) | (_ & _ & H)]])]]];
    rewrite H; cbn [snd];
    try (left; eexists; reflexivity).
  - destruct (ExtractSpec.respond_cases (Extract.joined text))
      as [[_ E] | [Hne E]]; rewrite E; [left; eexists; reflexivity|].
    right. exists (cleanup (Extract.joined text)).
    split; [rewrite TextSpec.trim_cleanup; exact Hne | reflexivity].
  - destruct (ExtractSpec.respond_cases x)
      as [[_ E] | [Hne E]]; rewrite E; [left; eexists; reflexivity|].
    right. exists (cleanup x).
    split; [rewrite TextSpec.trim_cleanup; exact Hne | reflexivity].
Qed.

Lemma analyzeText_sent textToAnalyze job sent :
  In (fetch_api_analyze sent) (fst (analyzeText browser textToAnalyze job)) ->
  sent = analyze_body textToAnalyze job.
Proof.
  destruct (analyzeText_cases textToAnalyze job)
    as [(response & data & _ & _ & _ & E) | (err & E)]; rewrite E; cbn [fst];
    intros Hin; cbn [In] in Hin;
    repeat (destruct Hin as [Hin|Hin]; try discriminate);
    try contradiction; injection Hin as <-; reflexivity.
Qed.

(** X23: when the extract route is served by the handler above, every
    request that [handleAnalyze] sends to the analysis route carries a
    [resumeText] that is a string with a code unit other than white space
    (the text typed, or the text extracted from the file), so the handler
    of that route never answers it with status 400. *)
Theorem page_requests_pass_check (w : World) st sent :
  (forall file, fetch_extract browser file = served_extract w file) ->
  In (fetch_api_analyze sent) (snd (handleAnalyze browser st)) ->
  exists t,
    member sent "resumeText" = Some (JString t)
    /\ trim t <> []
    /\ forall response,
        snd (run (Analyze.POST w (analyze_request sent))) = Ok response ->
        status response <> 400%N.
Proof.
  intros Hserved Hin.
  assert (Htext : exists t job,
             sent = analyze_body (Some (JString t)) job /\ trim t <> []).
  { revert Hin. unfold handleAnalyze.
    change (selectedFile (setError [] st)) with (selectedFile st).
    destruct (selectedFile st) as [file|].
    - unfold extractTextFromFile. rewrite Hserved.
      destruct (served_extract_cases w file) as [(data & E) | (t & Ht & E)];
        rewrite E; cbn [ok response_json negb].
      + cbn [snd]. intros [Hin|[]]. discriminate.
      + cbn [member assoc]. change (js_string_eqb (str "text") (str "text"))
          with true. cbv iota.
        match goal with
        | |- context [analyzeText browser ?x ?j] =>
            pose proof (analyzeText_sent x j sent) as Hsent;
            destruct (analyzeText browser x j) as [effects outcome];
            intros Hin; exists t, j
        end.
        cbn [snd] in Hin. destruct Hin as [Hin|Hin]; [discriminate|].
        split; [exact (Hsent Hin) | exact Ht].
    - destruct (trim (resumeText (setError [] st))) as [|c r] eqn:Htrim.
      + cbn [snd]. intros [].
      + change (js_string_eqb (c :: r) []) with false. cbv iota.
        match goal with
        | |- context [analyzeText browser (Some (JString ?x)) ?j] =>
            pose proof (analyzeText_sent (Some (JString x)) j sent) as Hsent;
            destruct (analyzeText browser (Some (JString x)) j)
              as [effects outcome];
            intros Hin; exists x, j
        end.
        cbn [snd] in Hin.
        split; [exact (Hsent Hin)|].
        change (trim (resumeText st) <> []).
        change (trim (resumeText st) = c :: r) in Htrim.
        rewrite Htrim. discriminate. }
  destruct Htext as (t & job & -> & Htrim).
  exists t. split; [reflexivity|]. split; [exact Htrim|].
  intros response Hrun.
  exact (AnalyzeSpec.valid_text_not_400 w
           (analyze_request (analyze_body (Some (JString t)) job))
           (stringified (analyze_body (Some (JString t)) job)) t response
           eq_refl
           (JsonSpec.member_stringified_fixed
              (analyze_body (Some (JString t)) job) "resumeText" (JString t)
              eq_refl eq_refl)
           Htrim Hrun).
Qed.

End Page.

Lemma routed_names_accepted_witness :
  validateFile (rt := Sample.runtime) Sample.cv initial
  = (true, setError [] initial).
Proof.
  apply (routed_names_accepted (rt := Sample.runtime) Sample.cv initial).
  - intros t _. reflexivity.
  - left. exists (str "CV"), (str ".PDF"). split; reflexivity.
Defined.

Lemma analyze_needs_input_witness :
  handleAnalyze (rt := Sample.runtime) Sample.offline
    (setResumeText [SP; LF] initial)
  = (setError (str "Please upload a resume file or paste the resume text")
       (setResumeText [SP; LF] initial),
     []).
Proof.
  exact (analyze_needs_input (rt := Sample.runtime) Sample.offline
           (setResumeText [SP; LF] initial) eq_refl eq_refl).
Defined.

Lemma results_only_after_success_witness :
  exists extraction sent response data,
    snd (handleAnalyze (rt := Sample.runtime) (Sample.site Sample.full)
           Sample.picked_cv)
    = extraction
      ++ [fetch_api_analyze sent;
          sessionStorage_setItem (str "analysisResult") data;
          router_push (str "/results")]
    /\ (forall eff, In eff extraction -> exists file, eff = fetch_api_extract file)
    /\ fetch_analyze (Sample.site Sample.full) sent = Ok response
    /\ ok response = true
    /\ response_json response = Ok data
    /\ error (fst (handleAnalyze (rt := Sample.runtime)
                     (Sample.site Sample.full) Sample.picked_cv)) = [].
Proof.
  apply (results_only_after_success (rt := Sample.runtime)
           (Sample.site Sample.full) Sample.picked_cv).
  left. exists (str "/results"). vm_compute. right. right. right. left.
  reflexivity.
Defined.

Lemma page_requests_pass_check_witness :
  exists t,
    member (JObject [(str "resumeText", JString (str "Jane Doe Engineer"))])
      "resumeText" = Some (JString t)
    /\ trim t <> []
    /\ forall response,
        snd (run (Analyze.POST (rt := Sample.runtime) Sample.full
                    (analyze_request
                       (JObject [(str "resumeText",
                                  JString (str "Jane Doe Engineer"))]))))
        = Ok response ->
        status response <> 400%N.
Proof.
  apply (page_requests_pass_check (rt := Sample.runtime)
           (Sample.site Sample.full) Sample.full Sample.picked_cv).
  - intros file. reflexivity.
  - vm_compute. right. left. reflexivity.
Defined.

Example picked_then_analyzed_ex :
  handleAnalyze (rt := Sample.runtime) (Sample.site Sample.full) Sample.picked_cv
  = (Sample.picked_cv,
     [fetch_api_extract Sample.cv;
      fetch_api_analyze
        (JObject [(str "resumeText", JString (str "Jane Doe Engineer"))]);
      sessionStorage_setItem (str "analysisResult") Sample.analysis_out_of_range;
      router_push (str "/results")]).
Proof. vm_compute. reflexivity. Qed.

Example offline_ex :
  handleAnalyze (rt := Sample.runtime) Sample.offline Sample.pasted
  = (setError (str "Failed to fetch") Sample.pasted,
     [fetch_api_analyze (JObject [(str "resumeText", JString Sample.resume)])]).
Proof. vm_compute. reflexivity. Qed.

End HomeSpec.

(** ** The results page *)
Module ResultsSpec.
Import Results.

Example scoreCategory_ex :
  option_map label (scoreCategory (Some Sample.excellent))
  = Some (str "Excellent!").
Proof. reflexivity. Qed.

(** X24: the badge under the score and the ring around it have the same
    colour: for every score, the accent colour of its category is the main
    colour that [getScoreColor] gives for it. *)
Theorem badge_matches_ring (result : AnalyzeResponse) :
  option_map accentColor (scoreCategory (Some result))
  = Some (main (getScoreColor (resumeScore result))).
Proof.
  unfold scoreCategory, getScoreColor.
  destruct (lt (resumeScore result) sixty); [reflexivity|].
  destruct (lt (resumeScore result) eighty_five); reflexivity.
Qed.

Lemma level_high_iff result :
  option_map level (scoreCategory (Some result)) = Some (str "high")
  <-> lt (resumeScore result) sixty = false
      /\ lt (resumeScore result) eighty_five = false.
Proof.
  unfold scoreCategory.
  destruct (lt (resumeScore result) sixty).
  - split; [intros H; vm_compute in H; discriminate | intros [H _]; discriminate].
  - destruct (lt (resumeScore result) eighty_five).
    + split; [intros H; vm_compute in H; discriminate
             | intros [_ H]; discriminate].
    + split; [auto | reflexivity].
Qed.

(** [SFcompare] on two finite positive doubles: exponents first, then
    mantissas. *)
Lemma SFcompare_finite m1 e1 m2 e2 :
  SFcompare (S754_finite false m1 e1) (S754_finite false m2 e2)
  = Some match (e1 ?= e2)%Z with
         | Lt => Lt | Gt => Gt | Eq => (m1 ?= m2)%positive end.
Proof. reflexivity. Qed.

(** The three comparisons of a finite positive double with 60 and 85. *)
Lemma thresholds_finite m e :
  let x := S754_finite false m e in
  ge x eighty_five = true
  <-> lt x sixty = false /\ lt x eighty_five = false.
Proof.
  cbv zeta. unfold ge, lt, SFleb, SFltb, sixty, eighty_five.
  rewrite !SFcompare_finite.
  rewrite (Z.compare_antisym e (-46)).
  rewrite (Pos.compare_antisym m 5981343255101440).
  destruct (Z.compare_spec e (-46)) as [He|He|He].
  - subst e. change (-46 ?= -47)%Z with Gt. cbv iota.
    destruct (m ?= 5981343255101440)%positive; cbn [CompOpp];
      split; try (intros [_ H]); try intros H; try discriminate;
      try (split; reflexivity); reflexivity.
  - cbn [CompOpp]. split; [discriminate|].
    intros [_ H]. discriminate.
  - assert (He' : (e ?= -47)%Z = Gt).
    { apply Z.compare_gt_iff. lia. }
    rewrite He'. cbn [CompOpp]. split; [split; reflexivity | reflexivity].
Qed.

(** X25: for every score that is a number (not [NaN]), the confetti
    start exactly when the category of the score is the highest one: the
    test [resumeScore >= 85] and the two tests [score < 60], [score < 85]
    of the category agree. *)
Theorem confetti_iff_excellent (result : AnalyzeResponse) :
  resumeScore result <> S754_nan ->
  confetti (resumeScore result) = true
  <-> option_map level (scoreCategory (Some result)) = Some (str "high").
Proof.
  intros Hnan. rewrite level_high_iff. unfold confetti.
  destruct (resumeScore result) as [s|s| |s m e].
  - destruct s; split; try (intros [? ?]); try intros ?; discriminate.
  - destruct s; split; try (intros [? ?]); try intros ?; try discriminate;
      try (split; reflexivity); reflexivity.
  - congruence.
  - destruct s; [|apply thresholds_finite].
    split; try (intros [? ?]); try intros ?; discriminate.
Qed.

Lemma confetti_iff_excellent_witness :
  confetti (resumeScore Sample.excellent) = true
  <-> option_map level (scoreCategory (Some Sample.excellent))
      = Some (str "high").
Proof.
  apply (confetti_iff_excellent Sample.excellent). discriminate.
Defined.

End ResultsSpec.
